(** * Floor-plan analyzer: wall extraction, file discovery, image helpers
      and the per-image pipeline, embedded from the Python sources.

    The first part embeds the program: [bbox_to_wall_line] and
    [extract_walls] (processing/wall_extractor.py), [get_image_files]
    (utils/file_utils.py), [read_image], [ensure_color_image] and
    [get_image_dimensions] (utils/image_utils.py), the result schema
    (models/schemas.py), [infer_image] (detection/roboflow_client.py) and
    [process_single_image] and [main] (main.py). The second part states
    and proves the properties.

    Python values are modelled as the sources use them:
    - [float] is IEEE-754 binary64, taken from the Standard Library's
      executable specification [SpecFloat] (precision 53, emax 1024), so
      infinities, NaN and signed zeros are present;
    - [int] is unbounded, i.e. [Z]; [//] by a positive literal is [Z.div];
    - [str] is a [string] holding the UTF-8 encoding of the text;
    - a raised exception is the [Raise] alternative of [result]. *)

From Stdlib Require Import ZArith List Bool Lia Ascii String SpecFloat.
From stdpp Require Import base option list gmap strings pretty.

Open Scope Z_scope.

(** ** Exceptions and results

    [RequestException] stands for an exception of the [requests] library
    whose [response] attribute is [None] (a connection error, a timeout);
    [HTTPError] for one that carries a response, as the exception raised by
    [raise_for_status] does. Both are caught by [except RequestException]. *)

Inductive exn :=
| TypeError | ValueError | OverflowError | AttributeError | IndexError
| OSError | RequestException | HTTPError | ValidationError | CvError
| InvalidReference.

Inductive result (A : Type) :=
| Ok (a : A)
| Raise (e : exn).
Arguments Ok {A} a.
Arguments Raise {A} e.

#[global] Instance result_ret : MRet result := fun A a => Ok a.
#[global] Instance result_bind : MBind result := fun A B k r =>
  match r with
  | Ok a => k a
  | Raise e => Raise e
  end.

(** ** Python floats *)

Module PyFloat.

Abbreviation float := spec_float.

Definition prec : Z := 53.
Definition emax : Z := 1024.

Definition add : float -> float -> float := SFadd prec emax.
Definition sub : float -> float -> float := SFsub prec emax.
Definition mul : float -> float -> float := SFmul prec emax.
Definition div : float -> float -> float := SFdiv prec emax.

(** [a < b] and [a >= b]; both are [False] as soon as a NaN is involved. *)
Definition ltb (a b : float) : bool := SFltb a b.
Definition geb (a b : float) : bool :=
  match SFcompare a b with
  | Some Gt | Some Eq => true
  | _ => false
  end.

(** Correctly rounded value of the integer [z] (round to nearest even). *)
Definition of_Z (z : Z) : float := binary_normalize prec emax z 0 false.

(** [float(n)] for an [int]: too large a magnitude is an [OverflowError]. *)
Definition of_int (z : Z) : result float :=
  match of_Z z with
  | S754_infinity _ => Raise OverflowError
  | f => Ok f
  end.

(** [int(f)]: truncation toward zero. Infinities raise [OverflowError],
    NaN raises [ValueError]. *)
Definition to_int (f : float) : result Z :=
  match f with
  | S754_zero _ => Ok 0
  | S754_infinity _ => Raise OverflowError
  | S754_nan => Raise ValueError
  | S754_finite s m e =>
      Ok (Z.quot (cond_Zopp s (Z.pos m) * 2 ^ Z.max e 0) (2 ^ Z.max (- e) 0))
  end.

Definition is_finite (f : float) : bool :=
  match f with
  | S754_zero _ | S754_finite _ _ _ => true
  | _ => false
  end.

Definition is_zero (f : float) : bool :=
  match f with
  | S754_zero _ => true
  | _ => false
  end.

Definition zero : float := S754_zero false.
Definition two : float := Eval vm_compute in of_Z 2.

#[global] Arguments add : simpl never.
#[global] Arguments sub : simpl never.
#[global] Arguments mul : simpl never.
#[global] Arguments div : simpl never.
#[global] Arguments ltb : simpl never.
#[global] Arguments geb : simpl never.
#[global] Arguments of_Z : simpl never.

End PyFloat.

Import PyFloat.

(** ** Box-to-line heuristic ([processing/wall_extractor.py]) *)

Definition point : Type := Z * Z.

Definition bbox_to_wall_line (x y width height : float) : result (list point) :=
  x1 ← to_int (sub x (div width two));
  y1 ← to_int (sub y (div height two));
  x2 ← to_int (add x (div width two));
  y2 ← to_int (add y (div height two));
  if geb width (mul two height) then
    let y_mid := (y1 + y2) / 2 in
    Ok [(x1, y_mid); (x2, y_mid)]
  else if geb height (mul two width) then
    let x_mid := (x1 + x2) / 2 in
    Ok [(x_mid, y1); (x_mid, y2)]
  else
    Ok [(x1, y1); (x2, y1); (x2, y2); (x1, y2)].

(** ** Python strings *)

Definition is_ascii_upper (c : ascii) : bool :=
  (65 <=? Z.of_nat (nat_of_ascii c)) && (Z.of_nat (nat_of_ascii c) <=? 90).

Fixpoint has_ascii_upper (s : string) : bool :=
  match s with
  | EmptyString => false
  | String c t => is_ascii_upper c || has_ascii_upper t
  end.

(** [s.endswith(ext)] *)
Fixpoint str_endswith (s ext : string) : bool :=
  if decide (s = ext) then true
  else match s with
       | EmptyString => false
       | String _ t => str_endswith t ext
       end.

(** [needle in hay] on two texts. *)
Fixpoint str_contains (needle hay : string) : bool :=
  String.prefix needle hay ||
  match hay with
  | EmptyString => false
  | String _ t => str_contains needle t
  end.

(** ** Python values, as decoded from JSON *)

#[warnings="-register-all"] Inductive PyVal :=
| PNone
| PBool (b : bool)
| PInt (z : Z)
| PFloat (f : float)
| PStr (s : string)
| PList (l : list PyVal)
| PDict (d : gmap string PyVal).

(** [d.get(key, default)]; only a dict has the method. *)
Definition py_get (d : PyVal) (key : string) (dflt : PyVal) : result PyVal :=
  match d with
  | PDict m => Ok (default dflt (m !! key))
  | _ => Raise AttributeError
  end.

(** ** Log records, one constructor per logging call of the sources *)

Inductive event :=
| WarnPrediction (e : exn)
| InfoWallsFound (n : nat)
| WarnNoDirectory (directory : string)
| ErrorNotDirectory (directory : string)
| InfoImagesFound (n : nat) (directory : string)
| ErrorDecode (path : string)
| ErrorReadCritical (path : string) (e : exn)
| InfoLaunch
| InfoBatch (n : nat)
| WarnNoImages (directory : string)
| InfoStart (path : string)
| ErrorUnreadable (path : string)
| ErrorInference (path : string) (e : exn)
| InfoResultSaved (path : string)
| ErrorResultSave (path : string)
| InfoDebugSaved (path : string)
| ErrorDebugSave (path : string) (e : exn)
| InfoDone
| WarnStatus (status : Z)
| ErrorNoPredictions
| ErrorNetwork
| ErrorResponseDetails
| ErrorImageFile (path : string)
| ErrorUnexpected (e : exn)
| ErrorMakedirs (path : string) (e : exn).

(** ** Walls, as the dictionaries built by [extract_walls] *)

Record wall := {
  w_id : string;
  w_points : list point;
  w_confidence : float;
}.

(** ** Builtins of the Python runtime

    The builtins the sources call whose behaviour comes from tables and
    formats of the runtime: [str.lower] (Unicode case mapping), [str(v)]
    (formatting of numbers and containers) and [float(s)] on text, where
    [None] stands for the [ValueError] of an unparsable text. Two facts
    are required of them: a lowercased text contains none of the letters
    A-Z, and [str] of a text is that text. *)
Class PyBuiltins := {
  str_lower : string -> string;
  py_str : PyVal -> string;
  float_of_str : string -> option float;
  str_lower_no_upper : forall s, has_ascii_upper (str_lower s) = false;
  py_str_of_str : forall s, py_str (PStr s) = s;
}.

Section Builtins.
Context {rt : PyBuiltins}.

(** [float(v)] *)
Definition py_float (v : PyVal) : result float :=
  match v with
  | PFloat f => Ok f
  | PInt z => of_int z
  | PBool b => Ok (if b then of_Z 1 else zero)
  | PStr s =>
      match float_of_str s with
      | Some f => Ok f
      | None => Raise ValueError
      end
  | PNone | PList _ | PDict _ => Raise TypeError
  end.

(** *** [extract_walls] *)

(** The body of the [try] block for one prediction: [Ok None] is a
    [continue], [Ok (Some w)] an appended wall, [Raise e] an exception
    leaving the block. [wall_id] is the current value of the counter. *)
Definition prediction_body (confidence_threshold : float) (wall_id : Z)
    (pred : PyVal) : result (option wall) :=
  c ← py_get pred "confidence" (PFloat zero);
  confidence ← py_float c;
  k ← py_get pred "class" (PStr "");
  let class_name := str_lower (py_str k) in
  if ltb confidence confidence_threshold then Ok None
  else if negb (str_contains "wall" class_name) then Ok None
  else
    x ← py_get pred "x" (PInt 0) ≫= py_float;
    y ← py_get pred "y" (PInt 0) ≫= py_float;
    width ← py_get pred "width" (PInt 0) ≫= py_float;
    height ← py_get pred "height" (PInt 0) ≫= py_float;
    points ← bbox_to_wall_line x y width height;
    Ok (Some {| w_id := "w" +:+ pretty wall_id;
                w_points := points;
                w_confidence := confidence |}).

(** [except (TypeError, ValueError)] *)
Definition handled (e : exn) : bool :=
  match e with
  | TypeError | ValueError => true
  | _ => false
  end.

(** The [for] loop, with the locals [walls] and [wall_id] and the log
    written so far as accumulators. *)
Fixpoint walls_loop (confidence_threshold : float) (predictions : list PyVal)
    (walls : list wall) (wall_id : Z) (log : list event)
    : list event * result (list wall) :=
  match predictions with
  | [] => (log ++ [InfoWallsFound (length walls)], Ok walls)
  | pred :: rest =>
      match prediction_body confidence_threshold wall_id pred with
      | Ok (Some w) =>
          walls_loop confidence_threshold rest (walls ++ [w]) (wall_id + 1) log
      | Ok None =>
          walls_loop confidence_threshold rest walls wall_id log
      | Raise e =>
          if handled e then
            walls_loop confidence_threshold rest walls wall_id
              (log ++ [WarnPrediction e])
          else (log, Raise e)
      end
  end.

Definition extract_walls (predictions : list PyVal)
    (confidence_threshold : float) : list event * result (list wall) :=
  walls_loop confidence_threshold predictions [] 1 [].

End Builtins.

(** ** File discovery ([utils/file_utils.py]) *)

(** What the sources observe of the file system. *)
Record filesystem := {
  fs_exists : string -> bool;
  fs_isdir : string -> bool;
  fs_listdir : string -> result (list string);
  fs_makedirs : string -> result ();
}.

(** [os.path.join(a, b)] with the POSIX separator. *)
Definition os_path_join (a b : string) : string :=
  if String.prefix "/" b then b
  else if decide (a = "") then b
  else if str_endswith a "/" then a +:+ b
  else a +:+ "/" +:+ b.

Definition default_extensions : list string := [".jpg"; ".jpeg"; ".png"].

Section FileDiscovery.
Context {rt : PyBuiltins}.

(** [any(filename.lower().endswith(ext) for ext in extensions)] *)
Definition has_image_extension (extensions : list string) (filename : string)
    : bool :=
  existsb (fun ext => str_endswith (str_lower filename) ext) extensions.

(** The loop over the directory listing. *)
Fixpoint image_files_loop (directory : string) (extensions names : list string)
    : list string :=
  match names with
  | [] => []
  | filename :: rest =>
      if has_image_extension extensions filename then
        os_path_join directory filename
          :: image_files_loop directory extensions rest
      else image_files_loop directory extensions rest
  end.

Definition get_image_files (fs : filesystem) (directory : string)
    (extensions : option (list string)) : list event * result (list string) :=
  let extensions := default default_extensions extensions in
  if negb (fs_exists fs directory) then ([WarnNoDirectory directory], Ok [])
  else if negb (fs_isdir fs directory) then
    ([ErrorNotDirectory directory], Raise ValueError)
  else
    match fs_listdir fs directory with
    | Raise e => ([], Raise e)
    | Ok names =>
        let image_files := image_files_loop directory extensions names in
        ([InfoImagesFound (length image_files) directory], Ok image_files)
    end.

End FileDiscovery.

(** ** Rasters ([utils/image_utils.py])

    A numpy array is its shape and its elements in row-major order. Arrays
    are objects: a variable holds a reference into the store of arrays, so
    that copying and in-place drawing can be told apart. *)

Record ndarray := {
  shape : list nat;
  data : list Z;
}.

Definition loc := nat.

Definition is_empty_array (a : ndarray) : bool :=
  bool_decide (0%nat ∈ shape a).

(** [cv2.cvtColor(_, COLOR_GRAY2BGR)]: every sample becomes three. *)
Definition cvtColor_GRAY2BGR (a : ndarray) : result ndarray :=
  if is_empty_array a then Raise CvError
  else match shape a with
       | [h; w] | [h; w; 1%nat] =>
           Ok {| shape := [h; w; 3%nat];
                 data := flat_map (fun v => [v; v; v]) (data a) |}
       | _ => Raise CvError
       end.

Fixpoint drop_alpha (samples : list Z) : list Z :=
  match samples with
  | b :: g :: r :: _ :: rest => b :: g :: r :: drop_alpha rest
  | _ => []
  end.

(** [cv2.cvtColor(_, COLOR_BGRA2BGR)]: the fourth channel is dropped. *)
Definition cvtColor_BGRA2BGR (a : ndarray) : result ndarray :=
  if is_empty_array a then Raise CvError
  else match shape a with
       | [h; w; 4%nat] =>
           Ok {| shape := [h; w; 3%nat]; data := drop_alpha (data a) |}
       | _ => Raise CvError
       end.

(** ** Program state and effects

    The store of arrays, the result files written so far and the log. A
    computation may raise after having changed the state. *)

Record state := {
  arrays : gmap loc ndarray;
  json_files : gmap string PyVal;
  png_files : gmap string ndarray;
  log : list event;
}.

Record M (A : Type) := Run { run : state -> result A * state }.
Arguments Run {A} _.
Arguments run {A} _ _.

#[global] Instance M_ret : MRet M := fun A a => Run (fun s => (Ok a, s)).
#[global] Instance M_bind : MBind M := fun A B k m =>
  Run (fun s =>
    match run m s with
    | (Ok a, s') => run (k a) s'
    | (Raise e, s') => (Raise e, s')
    end).

Definition raise {A} (e : exn) : M A := Run (fun s => (Raise e, s)).

Definition lift {A} (r : result A) : M A := Run (fun s => (r, s)).

(** [try: body  except Exception as e: handler e] *)
Definition try_except {A} (body : M A) (handler : exn -> M A) : M A :=
  Run (fun s =>
    match run body s with
    | (Ok a, s') => (Ok a, s')
    | (Raise e, s') => run (handler e) s'
    end).

(** [try: body  except IOError as e: handler]; [IOError] is [OSError]. *)
Definition try_except_IOError {A} (body : M A) (handler : M A) : M A :=
  try_except body
    (fun e => match e with OSError => handler | _ => raise e end).

Definition logger (ev : event) : M () :=
  Run (fun s =>
    (Ok (), {| arrays := arrays s; json_files := json_files s;
               png_files := png_files s; log := log s ++ [ev] |})).

(** A new array object. *)
Definition alloc (a : ndarray) : M loc :=
  Run (fun s =>
    let l := fresh (dom (arrays s)) in
    (Ok l, {| arrays := <[l := a]> (arrays s); json_files := json_files s;
              png_files := png_files s; log := log s |})).

(** The array behind a reference. References come from [alloc], so the
    failure branch is not reachable from the operations below. *)
Definition deref (l : loc) : M ndarray :=
  Run (fun s =>
    match arrays s !! l with
    | Some a => (Ok a, s)
    | None => (Raise InvalidReference, s)
    end).

(** In-place update of an array object. *)
Definition store (l : loc) (a : ndarray) : M () :=
  Run (fun s =>
    (Ok (), {| arrays := <[l := a]> (arrays s); json_files := json_files s;
               png_files := png_files s; log := log s |})).

Definition write_json (path : string) (doc : PyVal) : M () :=
  Run (fun s =>
    (Ok (), {| arrays := arrays s; json_files := <[path := doc]> (json_files s);
               png_files := png_files s; log := log s |})).

Definition write_png (path : string) (a : ndarray) : M () :=
  Run (fun s =>
    (Ok (), {| arrays := arrays s; json_files := json_files s;
               png_files := <[path := a]> (png_files s); log := log s |})).

Definition pass : M () := mret ().

Fixpoint for_each {A} (l : list A) (body : A -> M ()) : M () :=
  match l with
  | [] => pass
  | x :: rest => body x ;; for_each rest body
  end.

(** The libraries and services the program calls. *)
Record http_response := {
  status_code : Z;
  json : result PyVal;
}.

Record environment := {
  files : filesystem;
  cv2_imread : string -> option ndarray;
  read_bytes : string -> result (list Z);
  cv2_imdecode : list Z -> result (option ndarray);
  cv2_line : ndarray -> point -> point -> result ndarray;
  cv2_imwrite : string -> ndarray -> result bool;
  open_w : string -> result ();
  requests_post : string -> string -> result http_response;
}.

Section ImageUtils.
Context (env : environment).

Definition read_image (image_path : string) : M (option loc) :=
  try_except
    (match cv2_imread env image_path with
     | Some img => l ← alloc img; mret (Some l)
     | None =>
         img_bytes ← lift (read_bytes env image_path);
         img ← lift (cv2_imdecode env img_bytes);
         match img with
         | None => logger (ErrorDecode image_path) ;; mret None
         | Some img => l ← alloc img; mret (Some l)
         end
     end)
    (fun e => logger (ErrorReadCritical image_path e) ;; mret None).

Definition ensure_color_image (image : option loc) : M loc :=
  match image with
  | None => raise ValueError
  | Some l =>
      a ← deref l;
      if decide (length (shape a) = 2%nat) then
        lift (cvtColor_GRAY2BGR a) ≫= alloc
      else
        match shape a !! 2%nat with
        | None => raise IndexError
        | Some 4%nat => lift (cvtColor_BGRA2BGR a) ≫= alloc
        | Some _ => alloc a
        end
  end.

(** [image.shape[:2]] *)
Definition get_image_dimensions (image : option loc) : M (list nat) :=
  match image with
  | None => raise ValueError
  | Some l => a ← deref l; mret (take 2 (shape a))
  end.

(** The pairs [(points[i], points[i + 1])] for [i] in
    [range(len(points) - 1)]. *)
Fixpoint segments (points : list point) : list (point * point) :=
  match points with
  | p :: (q :: _) as rest => (p, q) :: segments rest
  | _ => []
  end.

Definition visualize_walls (image : option loc) (walls : list wall) : M loc :=
  match image with
  | None => raise ValueError
  | Some l =>
      a ← deref l;
      vis_image ← alloc a;
      for_each walls (fun wall =>
        for_each (segments (w_points wall)) (fun '(start_point, end_point) =>
          canvas ← deref vis_image;
          drawn ← lift (cv2_line env canvas start_point end_point);
          store vis_image drawn)) ;;
      mret vis_image
  end.

End ImageUtils.

(** ** Result schema ([models/schemas.py])

    The pydantic models are records; building one from loosely typed input
    validates it. The models keep pydantic's default configuration, so a
    key of the input that names no declared field is ignored. Inputs are
    accepted in the types the caller passes; pydantic's further coercions
    of other input types are not modelled and count as validation errors. *)

Module Schemas.

Record Wall := {
  id : string;
  points : list (list Z);
  confidence : option float;
}.

Record Metadata := {
  source : string;
  shape : list Z;
}.

Record FloorPlanResult := {
  meta : Metadata;
  walls : list Wall;
}.

Definition validate_str (v : PyVal) : result string :=
  match v with
  | PStr s => Ok s
  | _ => Raise ValidationError
  end.

Definition validate_int (v : PyVal) : result Z :=
  match v with
  | PInt z => Ok z
  | _ => Raise ValidationError
  end.

Fixpoint validate_list {A} (item : PyVal -> result A) (l : list PyVal)
    : result (list A) :=
  match l with
  | [] => Ok []
  | v :: rest => a ← item v; r ← validate_list item rest; Ok (a :: r)
  end.

Definition required (fields : gmap string PyVal) (name : string) : result PyVal :=
  match fields !! name with
  | Some v => Ok v
  | None => Raise ValidationError
  end.

Definition Metadata_validate (fields : gmap string PyVal) : result Metadata :=
  source ← required fields "source" ≫= validate_str;
  shape ← required fields "shape";
  match shape with
  | PList l =>
      shape ← validate_list validate_int l;
      Ok {| source := source; shape := shape |}
  | _ => Raise ValidationError
  end.

(** A wall dictionary of [extract_walls]: the point tuples become lists. *)
Definition Wall_validate (w : wall) : Wall :=
  {| id := w_id w;
     points := (fun p : point => [p.1; p.2]) <$> w_points w;
     confidence := Some (w_confidence w) |}.

(** [FloorPlanResult(meta=..., walls=...)] *)
Definition FloorPlanResult_new (meta : gmap string PyVal) (walls : list wall)
    : result FloorPlanResult :=
  m ← Metadata_validate meta;
  Ok {| meta := m; walls := Wall_validate <$> walls |}.

(** [model_dump()] *)
Definition Metadata_dump (m : Metadata) : gmap string PyVal :=
  {[ "source" := PStr (source m); "shape" := PList (PInt <$> shape m) ]}.

Definition Wall_dump (w : Wall) : gmap string PyVal :=
  {[ "id" := PStr (id w);
     "points" := PList ((fun p => PList (PInt <$> p)) <$> points w);
     "confidence" := from_option PFloat PNone (confidence w) ]}.

Definition model_dump (r : FloorPlanResult) : gmap string PyVal :=
  {[ "meta" := PDict (Metadata_dump (meta r));
     "walls" := PList ((fun w => PDict (Wall_dump w)) <$> walls r) ]}.

End Schemas.

(** ** Settings ([config/settings.py]) *)

Record Settings := {
  API_KEY : string;
  MODEL_ID : string;
  INPUT_DIR : string;
  OUTPUT_DIR : string;
  DEBUG_DIR : string;
  CONFIDENCE_THRESHOLD : float;
  REQUEST_TIMEOUT : Z;
  PROXY_URL : option string;
}.

Definition proxies (self : Settings) : option (gmap string string) :=
  match PROXY_URL self with
  | Some url =>
      if decide (url = "") then None
      else Some {[ "http" := url; "https" := url ]}
  | None => None
  end.

Definition debug_output_path (self : Settings) : string :=
  os_path_join (OUTPUT_DIR self) "debug".

(** ** Inference client ([detection/roboflow_client.py]) *)

Record RoboflowClient := {
  client_api_key : string;
  client_model_id : string;
  client_timeout : Z;
  client_proxies : option (gmap string string);
  base_url : string;
}.

Definition RoboflowClient_init (api_key model_id : string) (timeout : Z)
    (proxies : option (gmap string string)) : RoboflowClient :=
  {| client_api_key := api_key; client_model_id := model_id;
     client_timeout := timeout; client_proxies := proxies;
     base_url := "https://detect.roboflow.com/" +:+ model_id |}.

(** [e.response is not None], for an exception of the [requests] library *)
Definition has_response (e : exn) : bool :=
  match e with
  | HTTPError => true
  | _ => false
  end.

(** ["predictions" in result] *)
Definition has_predictions (body : PyVal) : result bool :=
  match body with
  | PDict m => Ok (bool_decide (is_Some (m !! "predictions")))
  | PList l =>
      Ok (existsb (fun v => match v with
                            | PStr s => bool_decide (s = "predictions")
                            | _ => false
                            end) l)
  | PStr s => Ok (str_contains "predictions" s)
  | _ => Raise TypeError
  end.

Definition infer_image (env : environment) (self : RoboflowClient)
    (image_path : string) : M PyVal :=
  let url := base_url self +:+ "?api_key=" +:+ client_api_key self in
  try_except
    (response ← lift (requests_post env url image_path);
     (if decide (status_code response = 200) then pass
      else logger (WarnStatus (status_code response))) ;;
     (if (400 <=? status_code response) && (status_code response <? 600)
      then raise HTTPError else pass) ;;
     body ← lift (json response);
     present ← lift (has_predictions body);
     if negb present then logger ErrorNoPredictions ;; raise ValueError
     else mret body)
    (fun e =>
       match e with
       | RequestException | HTTPError =>
           logger ErrorNetwork ;;
           (if has_response e then logger ErrorResponseDetails else pass) ;;
           raise e
       | OSError => logger (ErrorImageFile image_path) ;; raise e
       | _ => logger (ErrorUnexpected e) ;; raise e
       end).

(** ** Orchestrator ([main.py]) *)

(** [os.path.basename] *)
Fixpoint basename (p : string) : string :=
  match p with
  | EmptyString => EmptyString
  | String c t =>
      if str_contains "/" t then basename t
      else if Ascii.eqb c "/" then t
      else p
  end.

(** The root of a path component [name]: the part before its last dot,
    unless only dots precede that dot. *)
Definition splitext_component (name : string) : string :=
  let fix before_last_dot (rev_name : list ascii) :=
    match rev_name with
    | [] => None
    | c :: before =>
        if Ascii.eqb c "." then Some before else before_last_dot before
    end in
  match before_last_dot (rev (list_ascii_of_string name)) with
  | Some before =>
      if forallb (fun c => Ascii.eqb c ".") before then name
      else string_of_list_ascii (rev before)
  | None => name
  end.

(** [os.path.splitext(p)[0]]: the extension is looked for after the last
    separator only, so everything up to that separator is kept as it is. *)
Definition splitext_root (p : string) : string :=
  let name := basename p in
  substring 0 (String.length p - String.length name)%nat p
  +:+ splitext_component name.

(** The items a [for] statement draws from a value. A string yields its
    characters, one per encoded code point. *)
Fixpoint characters (s : string) : list string :=
  match s with
  | EmptyString => []
  | String c t =>
      let continued :=
        match t with
        | String c' _ =>
            (128 <=? Z.of_nat (nat_of_ascii c'))
            && (Z.of_nat (nat_of_ascii c') <? 192)
        | EmptyString => false
        end in
      match characters t with
      | g :: gs =>
          if continued then String c g :: gs
          else String c EmptyString :: g :: gs
      | [] => [String c EmptyString]
      end
  end.

Definition py_iter (v : PyVal) : result (list PyVal) :=
  match v with
  | PList l => Ok l
  | PDict m => Ok (PStr <$> (map_to_list m).*1)
  | PStr s => Ok (PStr <$> characters s)
  | _ => Raise TypeError
  end.

(** Run a logging function: its records go to the log, its outcome is the
    outcome of the call. *)
Definition logged {A} (r : list event * result A) : M A :=
  for_each r.1 logger ;; lift r.2.

Section Orchestrator.
Context {rt : PyBuiltins} (env : environment) (settings : Settings).

Definition ensure_directory_exists (path : string) : M () :=
  if decide (path = "") then raise ValueError
  else
    try_except (lift (fs_makedirs (files env) path))
      (fun e => logger (ErrorMakedirs path e) ;; raise e).

Definition save_result (image_path output_path : string) (doc : PyVal) : M () :=
  try_except_IOError
    (lift (open_w env output_path) ;;
     write_json output_path doc ;;
     logger (InfoResultSaved output_path))
    (logger (ErrorResultSave image_path)).

Definition save_debug (image_path debug_path : string) (image : loc) : M () :=
  try_except
    (a ← deref image;
     written ← lift (cv2_imwrite env debug_path a);
     (if written : bool then write_png debug_path a else pass) ;;
     logger (InfoDebugSaved debug_path))
    (fun e => logger (ErrorDebugSave image_path e)).

Definition process_single_image (image_path : string) (client : RoboflowClient)
    : M () :=
  logger (InfoStart image_path) ;;
  image ← read_image env image_path;
  match image with
  | None => logger (ErrorUnreadable image_path)
  | Some _ =>
      visualization_image ← ensure_color_image image;
      dims ← get_image_dimensions image;
      match dims with
      | [height; width] =>
          detection ←
            try_except
              (r ← infer_image env client image_path; mret (Some r))
              (fun e => logger (ErrorInference image_path e) ;; mret None);
          match detection with
          | None => pass
          | Some detection_result =>
              predictions ←
                lift (py_get detection_result "predictions" (PList []));
              items ← lift (py_iter predictions);
              walls ←
                logged (extract_walls items (CONFIDENCE_THRESHOLD settings));
              visualization_image ←
                visualize_walls env (Some visualization_image) walls;
              let file_name := splitext_root (basename image_path) in
              result ← lift (Schemas.FloorPlanResult_new
                {[ "source" := PStr (basename image_path);
                   "shape" :=
                     PList [PInt (Z.of_nat height); PInt (Z.of_nat width)];
                   "model_id" := PStr (MODEL_ID settings) ]}
                walls);
              let output_path :=
                os_path_join (OUTPUT_DIR settings) (file_name +:+ ".json") in
              save_result image_path output_path
                (PDict (Schemas.model_dump result)) ;;
              let debug_path :=
                os_path_join (debug_output_path settings)
                  (file_name +:+ "_vis.png") in
              save_debug image_path debug_path visualization_image
          end
      | _ => raise ValueError
      end
  end.

Definition main : M () :=
  logger InfoLaunch ;;
  ensure_directory_exists (OUTPUT_DIR settings) ;;
  ensure_directory_exists (debug_output_path settings) ;;
  let client :=
    RoboflowClient_init (API_KEY settings) (MODEL_ID settings)
      (REQUEST_TIMEOUT settings) (proxies settings) in
  image_files ← logged (get_image_files (files env) (INPUT_DIR settings) None);
  logger (InfoBatch (length image_files)) ;;
  match image_files with
  | [] => logger (WarnNoImages (INPUT_DIR settings))
  | _ =>
      for_each image_files (fun image_path =>
        process_single_image image_path client) ;;
      logger InfoDone
  end.

End Orchestrator.

Definition default_settings : Settings :=
  {| API_KEY := "";
     MODEL_ID := "cubicasa5k-2-qpmsa/6";
     INPUT_DIR := "./images";
     OUTPUT_DIR := "./out";
     DEBUG_DIR := "./out/debug";
     CONFIDENCE_THRESHOLD := S754_finite false 7205759403792794 (-55);
     REQUEST_TIMEOUT := 60;
     PROXY_URL := Some "" |}.

Definition initial_state : state :=
  {| arrays := ∅; json_files := ∅; png_files := ∅; log := [] |}.

(** ** A reference instance of the builtins

    Exact on ASCII text: [str.lower] maps [A-Z] to [a-z]; [float(s)]
    follows the grammar of CPython (surrounding white space, sign, [inf],
    [infinity], [nan], decimal digits with optional fraction and exponent,
    underscores between digits) and rounds the decimal value to the nearest
    binary64. [str(v)] is exact for [str], [None], [bool] and [int]; the
    formatting of floats and containers is not reproduced and rendered as a
    marker. The general theorems below hold for every instance of the
    interface; this one serves the concrete evaluations. *)

Module Reference.

Definition ascii_lower (c : ascii) : ascii :=
  if is_ascii_upper c then ascii_of_nat (nat_of_ascii c + 32) else c.

Fixpoint lower (s : string) : string :=
  match s with
  | EmptyString => EmptyString
  | String c t => String (ascii_lower c) (lower t)
  end.

Definition is_space (c : ascii) : bool :=
  let n := Z.of_nat (nat_of_ascii c) in
  ((9 <=? n) && (n <=? 13)) || ((28 <=? n) && (n <=? 32)).

Definition digit (c : ascii) : option Z :=
  let n := Z.of_nat (nat_of_ascii c) in
  if (48 <=? n) && (n <=? 57) then Some (n - 48) else None.

Definition is_digit (c : ascii) : bool :=
  match digit c with Some _ => true | None => false end.

Fixpoint lstrip (l : list ascii) : list ascii :=
  match l with
  | c :: t => if is_space c then lstrip t else l
  | [] => []
  end.

Definition strip (l : list ascii) : list ascii :=
  rev (lstrip (rev (lstrip l))).

(** Underscores must sit between two digits; they are then dropped. *)
Fixpoint underscores_ok (prev : option ascii) (l : list ascii) : bool :=
  match l with
  | [] => true
  | c :: t =>
      (if Ascii.eqb c "_" then
         match prev, t with
         | Some p, n :: _ => is_digit p && is_digit n
         | _, _ => false
         end
       else true) && underscores_ok (Some c) t
  end.

Fixpoint take_digits (l : list ascii) : list Z * list ascii :=
  match l with
  | c :: t =>
      match digit c with
      | Some d => let '(ds, r) := take_digits t in (d :: ds, r)
      | None => ([], l)
      end
  | [] => ([], [])
  end.

Definition digits_value (ds : list Z) : Z :=
  fold_left (fun acc d => 10 * acc + d) ds 0.

Definition take_sign (l : list ascii) : bool * list ascii :=
  match l with
  | c :: t =>
      if Ascii.eqb c "-" then (true, t)
      else if Ascii.eqb c "+" then (false, t)
      else (false, l)
  | [] => (false, [])
  end.

(** The binary64 nearest to [(-1)^s * m * 10^e10] (ties to even). *)
Definition decimal_to_float (s : bool) (m e10 : Z) : float :=
  if m =? 0 then S754_zero s
  else if 0 <=? e10 then
    binary_normalize prec emax (cond_Zopp s (m * 10 ^ e10)) 0 false
  else
    let d := 10 ^ (- e10) in
    let sh := Z.max 0 (Z.log2 d - Z.log2 m + 66) in
    let q := (m * 2 ^ sh) / d in
    let sticky := if (m * 2 ^ sh) mod d =? 0 then 0 else 1 in
    binary_normalize prec emax (cond_Zopp s (2 * q + sticky)) (- sh - 1) false.

Definition parse_decimal (s : bool) (l : list ascii) : option float :=
  let '(ip, r1) := take_digits l in
  let '(fp, r2) :=
    match r1 with
    | c :: t => if Ascii.eqb c "." then take_digits t else ([], r1)
    | [] => ([], r1)
    end in
  match ip ++ fp with
  | [] => None
  | ds =>
      let m := digits_value ds in
      let k := Z.of_nat (length fp) in
      match r2 with
      | [] => Some (decimal_to_float s m (- k))
      | c :: t =>
          if Ascii.eqb c "e" || Ascii.eqb c "E" then
            let '(es, t') := take_sign t in
            match take_digits t' with
            | (d :: ed, []) =>
                Some (decimal_to_float s m
                        (cond_Zopp es (digits_value (d :: ed)) - k))
            | _ => None
            end
          else None
      end
  end.

Definition parse_float (text : string) : option float :=
  let l := strip (list_ascii_of_string text) in
  if underscores_ok None l then
    let '(s, body) := take_sign (filter (fun c => c ≠ "_"%char) l) in
    let name := lower (string_of_list_ascii body) in
    if decide (name = "inf") then Some (S754_infinity s)
    else if decide (name = "infinity") then Some (S754_infinity s)
    else if decide (name = "nan") then Some S754_nan
    else parse_decimal s body
  else None.

Definition str_of (v : PyVal) : string :=
  match v with
  | PStr s => s
  | PNone => "None"
  | PBool b => if b then "True" else "False"
  | PInt z => pretty z
  | PFloat _ => "<float>"
  | PList _ => "<list>"
  | PDict _ => "<dict>"
  end.

End Reference.

(** ** Auxiliary notions used in the statements *)

Section Auxiliary.
Context {rt : PyBuiltins}.
Implicit Types (thr : float) (pred : PyVal) (walls : list wall)
  (log : list event) (d : gmap string PyVal).

(** The state of the loop after the predictions [pre], when none of them
    raised past the handler. *)
Fixpoint loop_state thr (pre : list PyVal) walls (wall_id : Z) log
    : option (list wall * Z * list event) :=
  match pre with
  | [] => Some (walls, wall_id, log)
  | pred :: rest =>
      match prediction_body thr wall_id pred with
      | Ok (Some w) => loop_state thr rest (walls ++ [w]) (wall_id + 1) log
      | Ok None => loop_state thr rest walls wall_id log
      | Raise e =>
          if handled e then
            loop_state thr rest walls wall_id (log ++ [WarnPrediction e])
          else None
      end
  end.

(** The counter is one more than the number of walls, and the walls are
    numbered from 1 in order. *)
Definition wall_ids (k : nat) : list string :=
  (fun i : nat => "w" +:+ pretty (Z.of_nat i)) <$> seq 1 k.

Definition numbered walls (wall_id : Z) : Prop :=
  wall_id = Z.of_nat (S (length walls)) /\
  w_id <$> walls = wall_ids (length walls).

(** [pred.get(key, dflt)] on a dictionary. *)
Definition field d (key : string) (dflt : PyVal) : PyVal :=
  default dflt (d !! key).

(** The prediction has a confidence that converts and lies strictly below
    the threshold. *)
Definition below_threshold thr pred : bool :=
  match py_get pred "confidence" (PFloat zero) ≫= py_float with
  | Ok c => ltb c thr
  | Raise _ => false
  end.

End Auxiliary.

Definition with_array (s : state) (l : loc) (a : ndarray) : state :=
  {| arrays := <[l := a]> (arrays s); json_files := json_files s;
     png_files := png_files s; log := log s |}.

Definition fresh_loc (s : state) : loc := fresh (dom (arrays s)).

(** ** Further notions used in the statements *)

Section MoreAuxiliary.
Context {rt : PyBuiltins}.

(** The prediction is a dictionary whose confidence converts and whose
    lowercased class text does not contain "wall". *)
Definition not_a_wall (pred : PyVal) : bool :=
  match pred with
  | PDict d =>
      match py_float (field d "confidence" (PFloat zero)) with
      | Ok _ =>
          negb (str_contains "wall"
                  (str_lower (py_str (field d "class" (PStr "")))))
      | Raise _ => false
      end
  | _ => false
  end.

(** The wall that the dictionary [d] gives rise to: its confidence and its
    geometry come from the fields of [d]. *)
Definition wall_of (d : gmap string PyVal) (w : wall) : Prop :=
  exists x y width height,
    py_float (field d "confidence" (PFloat zero)) = Ok (w_confidence w) /\
    str_contains "wall" (str_lower (py_str (field d "class" (PStr "")))) = true /\
    py_float (field d "x" (PInt 0)) = Ok x /\
    py_float (field d "y" (PInt 0)) = Ok y /\
    py_float (field d "width" (PInt 0)) = Ok width /\
    py_float (field d "height" (PInt 0)) = Ok height /\
    bbox_to_wall_line x y width height = Ok (w_points w).

(** The call [extract_walls(predictions, confidence_threshold)] on an
    arbitrary value: the [for] statement first draws the items of
    [predictions], outside the [try]; on a value that cannot be iterated
    this raises [TypeError] before anything is logged. *)
Definition extract_walls_call (predictions : PyVal)
    (confidence_threshold : float) : list event * result (list wall) :=
  match py_iter predictions with
  | Ok items => extract_walls items confidence_threshold
  | Raise e => ([], Raise e)
  end.

End MoreAuxiliary.

Definition is_dict (v : PyVal) : bool :=
  match v with
  | PDict _ => true
  | _ => false
  end.

(** [keeps f m]: running [m] never changes the observation [f] of the
    state. *)
Definition keeps {X A} (f : state -> X) (m : M A) : Prop :=
  forall s, f (run m s).2 = f s.

(** The JSON object written for a wall of [extract_walls]. *)
Definition wall_json (w : wall) : PyVal :=
  PDict {[ "id" := PStr (w_id w);
           "points" := PList ((fun p : point => PList [PInt p.1; PInt p.2])
                              <$> w_points w);
           "confidence" := PFloat (w_confidence w) ]}.

(** The error records that the handlers of [infer_image] log for the
    exception [e], in order. *)
Definition client_error_records (image_path : string) (e : exn) : list event :=
  match e with
  | RequestException => [ErrorNetwork]
  | HTTPError => [ErrorNetwork; ErrorResponseDetails]
  | OSError => [ErrorImageFile image_path]
  | _ => [ErrorUnexpected e]
  end.

(** The address a client posts to. *)
Definition request_url (self : RoboflowClient) : string :=
  base_url self +:+ "?api_key=" +:+ client_api_key self.

(** The paths of the two artifacts of an image. *)
Definition output_path_of (settings : Settings) (image_path : string) : string :=
  os_path_join (OUTPUT_DIR settings)
    (splitext_root (basename image_path) +:+ ".json").

Definition debug_path_of (settings : Settings) (image_path : string) : string :=
  os_path_join (debug_output_path settings)
    (splitext_root (basename image_path) +:+ "_vis.png").

(** The canvas after [cv2.line] drew the given strokes on it, one after
    the other, or the exception of the first stroke that fails. *)
Fixpoint draw_strokes (env : environment) (canvas : ndarray)
    (strokes : list (point * point)) : result ndarray :=
  match strokes with
  | [] => Ok canvas
  | (start_point, end_point) :: rest =>
      drawn ← cv2_line env canvas start_point end_point;
      draw_strokes env drawn rest
  end.

(** Every point of every wall paired with its successor, in order. *)
Definition strokes_of (walls : list wall) : list (point * point) :=
  flat_map (fun w => zip (w_points w) (drop 1 (w_points w))) walls.

(** [only_logs s s' evs]: [s'] is [s] with the records [evs] added to the
    log and nothing else changed. *)
Definition only_logs (s s' : state) (evs : list event) : Prop :=
  log s' = log s ++ evs /\ arrays s' = arrays s /\
  json_files s' = json_files s /\ png_files s' = png_files s.

(** ** Concrete inputs used by the examples below *)

Module Examples.

Definition prediction (fields : list (string * PyVal)) : PyVal :=
  PDict (list_to_map fields).

Definition decimal (m e10 : Z) : float :=
  Reference.decimal_to_float (m <? 0) (Z.abs m) e10.

Definition f0_2 : float := Eval vm_compute in decimal 2 (-1).
Definition f0_1 : float := Eval vm_compute in decimal 1 (-1).
Definition f0_9 : float := Eval vm_compute in decimal 9 (-1).
Definition f1e20 : float := Eval vm_compute in decimal 1 20.
Definition f7_25 : float := Eval vm_compute in decimal 725 (-2).
Definition fm3_5 : float := Eval vm_compute in decimal (-35) (-1).

Definition box (cls confidence x : PyVal) : gmap string PyVal :=
  list_to_map [("class", cls); ("confidence", confidence); ("x", x);
               ("y", PInt 50); ("width", PInt 100); ("height", PInt 10)].

Definition wall_09 : PyVal := PDict (box (PStr "wall") (PFloat f0_9) (PInt 50)).
Definition wall_at_threshold : gmap string PyVal :=
  box (PStr "Wall-Interior") (PFloat f0_2) (PInt 50).
Definition wall_low : PyVal := PDict (box (PStr "wall") (PFloat f0_1) (PInt 50)).
Definition wall_na : gmap string PyVal := box (PStr "wall") (PStr "n/a") (PInt 50).
Definition wall_no_confidence : gmap string PyVal :=
  list_to_map [("class", PStr "wall"); ("x", PInt 50); ("y", PInt 50);
               ("width", PInt 100); ("height", PInt 10)].
Definition wall_inf : PyVal :=
  PDict (box (PStr "wall") (PFloat f0_9) (PFloat (S754_infinity false))).
Definition wall_huge_int : PyVal :=
  PDict (box (PStr "wall") (PFloat f0_9) (PInt (10 ^ 400))).
Definition wall_far : PyVal :=
  PDict (box (PStr "wall") (PFloat f0_9) (PFloat f1e20)).

Definition segment_w (n : Z) (confidence : float) : wall :=
  {| w_id := "w" +:+ pretty n; w_points := [(0, 50); (100, 50)];
     w_confidence := confidence |}.

Definition fits_c_int (z : Z) : bool := (- 2 ^ 31 <=? z) && (z <? 2 ^ 31).

Definition gray_1x2 : ndarray := {| shape := [1; 2]%nat; data := [7; 9] |}.
Definition bgr_1x1 : ndarray := {| shape := [1; 1; 3]%nat; data := [1; 2; 3] |}.

(** A world with two images. The detection service reports, for
    [a.png], a wall box centred at x = 1e20, and for [B.JPG] a plain one.
    [cv2.line] rejects coordinates that do not fit a C [int]; the pixels it
    would change are not modelled. *)
Definition world : environment :=
  {| files :=
       {| fs_exists := fun d => bool_decide (d = "./images");
          fs_isdir := fun d => bool_decide (d = "./images");
          fs_listdir := fun _ => Ok ["a.png"; "notes.txt"; "B.JPG"];
          fs_makedirs := fun _ => Ok () |};
     cv2_imread := fun _ => Some gray_1x2;
     read_bytes := fun _ => Raise OSError;
     cv2_imdecode := fun _ => Ok None;
     cv2_line := fun a p q =>
       if fits_c_int p.1 && fits_c_int p.2 && fits_c_int q.1 && fits_c_int q.2
       then Ok a else Raise CvError;
     cv2_imwrite := fun _ _ => Ok true;
     open_w := fun _ => Ok ();
     requests_post := fun _ image_path =>
       Ok {| status_code := 200;
             json := Ok (prediction
               [("predictions",
                 PList [if decide (image_path = "./images/a.png")
                        then wall_far else wall_09])]) |} |}.

(** The same world without [a.png]. *)
Definition calm_world : environment :=
  {| files :=
       {| fs_exists := fs_exists (files world);
          fs_isdir := fs_isdir (files world);
          fs_listdir := fun _ => Ok ["notes.txt"; "B.JPG"];
          fs_makedirs := fs_makedirs (files world) |};
     cv2_imread := cv2_imread world;
     read_bytes := read_bytes world;
     cv2_imdecode := cv2_imdecode world;
     cv2_line := cv2_line world;
     cv2_imwrite := cv2_imwrite world;
     open_w := open_w world;
     requests_post := requests_post world |}.

Definition store_of (images : list ndarray) : state :=
  {| arrays := list_to_map (imap (fun i a => (i, a)) images);
     json_files := ∅; png_files := ∅; log := [] |}.

Definition door : PyVal := PDict (box (PStr "Door") (PFloat f0_9) (PInt 50)).

Definition square : PyVal :=
  prediction [("class", PStr "wall"); ("confidence", PFloat f0_9);
              ("x", PInt 50); ("y", PInt 50); ("width", PInt 20);
              ("height", PInt 20)].

Definition line_1d : ndarray := {| shape := [3]%nat; data := [1; 2; 3] |}.
Definition two_channels : ndarray :=
  {| shape := [1; 1; 2]%nat; data := [5; 6] |}.

(** Variants of [world]: another file system, another answer of the
    service, images that cannot be decoded. *)
Definition with_files (fs : filesystem) : environment :=
  {| files := fs;
     cv2_imread := cv2_imread world;
     read_bytes := read_bytes world;
     cv2_imdecode := cv2_imdecode world;
     cv2_line := cv2_line world;
     cv2_imwrite := cv2_imwrite world;
     open_w := open_w world;
     requests_post := requests_post world |}.

Definition with_post (post : string -> string -> result http_response)
    : environment :=
  {| files := files world;
     cv2_imread := cv2_imread world;
     read_bytes := read_bytes world;
     cv2_imdecode := cv2_imdecode world;
     cv2_line := cv2_line world;
     cv2_imwrite := cv2_imwrite world;
     open_w := open_w world;
     requests_post := post |}.


(** A world whose [cv2.line] records the end points of every stroke
    behind the samples of the canvas. *)
Definition recording_world : environment :=
  {| files := files world;
     cv2_imread := cv2_imread world;
     read_bytes := read_bytes world;
     cv2_imdecode := cv2_imdecode world;
     cv2_line := fun a p q =>
       Ok {| shape := shape a; data := data a ++ [p.1; p.2; q.1; q.2] |};
     cv2_imwrite := cv2_imwrite world;
     open_w := open_w world;
     requests_post := requests_post world |}.

Definition square_wall : wall :=
  {| w_id := "w1"; w_points := [(40, 40); (60, 40); (60, 60); (40, 60)];
     w_confidence := f0_9 |}.

Definition unreadable_world : environment :=
  {| files := files world;
     cv2_imread := fun _ => None;
     read_bytes := fun _ => Ok [0; 1; 2];
     cv2_imdecode := fun _ => Ok None;
     cv2_line := cv2_line world;
     cv2_imwrite := cv2_imwrite world;
     open_w := open_w world;
     requests_post := requests_post world |}.

Definition files_with (exists_ isdir : bool) (names : list string) : filesystem :=
  {| fs_exists := fun _ => exists_;
     fs_isdir := fun _ => isdir;
     fs_listdir := fun _ => Ok names;
     fs_makedirs := fun _ => Ok () |}.

Definition no_output_settings : Settings :=
  {| API_KEY := ""; MODEL_ID := "m/1"; INPUT_DIR := "./images";
     OUTPUT_DIR := ""; DEBUG_DIR := "debug";
     CONFIDENCE_THRESHOLD := f0_2; REQUEST_TIMEOUT := 60;
     PROXY_URL := None |}.

Definition client0 : RoboflowClient :=
  RoboflowClient_init "" "cubicasa5k-2-qpmsa/6" 60 None.

End Examples.

(** * The reference builtins satisfy the interface *)

Lemma ascii_lower_not_upper c :
  is_ascii_upper (Reference.ascii_lower c) = false.
Proof. destruct c as [[] [] [] [] [] [] [] []]; reflexivity. Qed.

Lemma lower_no_upper s : has_ascii_upper (Reference.lower s) = false.
Proof.
  induction s as [|c t IH]; simpl; [reflexivity|].
  now rewrite ascii_lower_not_upper, IH.
Qed.

Definition reference_builtins : PyBuiltins := {|
  str_lower := Reference.lower;
  py_str := Reference.str_of;
  float_of_str := Reference.parse_float;
  str_lower_no_upper := lower_no_upper;
  py_str_of_str := fun _ => eq_refl;
|}.

(** * The box-to-line heuristic *)

Lemma half_of_double (a : Z) : (a + a) / 2 = a.
Proof. rewrite Z.add_diag, Z.mul_comm. apply Z.div_mul. lia. Qed.

Lemma to_int_finite (f : float) :
  is_finite f = true -> exists z, to_int f = Ok z.
Proof. destruct f; simpl; try discriminate; eauto. Qed.

Lemma sub_zero_to_int (x w : float) :
  is_finite x = true -> is_zero w = true ->
  to_int (sub x (div w two)) = to_int x.
Proof.
  destruct w; try discriminate. destruct x; try discriminate; intros _ _.
  - destruct s, s0; reflexivity.
  - reflexivity.
Qed.

Lemma add_zero_to_int (x w : float) :
  is_finite x = true -> is_zero w = true ->
  to_int (add x (div w two)) = to_int x.
Proof.
  destruct w; try discriminate. destruct x; try discriminate; intros _ _.
  - destruct s, s0; reflexivity.
  - reflexivity.
Qed.

Lemma bbox_length (x y width height : float) (pts : list point) :
  bbox_to_wall_line x y width height = Ok pts ->
  length pts = 2%nat \/ length pts = 4%nat.
Proof.
  unfold bbox_to_wall_line. intros H.
  destruct (to_int (sub x (div width two))); [|discriminate].
  destruct (to_int (sub y (div height two))); [|discriminate].
  destruct (to_int (add x (div width two))); [|discriminate].
  destruct (to_int (add y (div height two))); [|discriminate].
  simpl in H.
  destruct (geb width (mul two height)); [injection H as <-; now left|].
  destruct (geb height (mul two width)); injection H as <-; auto.
Qed.

(** C9. A box of zero width and zero height (zeros of either sign) around a
    finite centre is classified as horizontal: the result is the 2-point
    segment whose endpoints are both [(int(x), int(y))]. Whatever the
    input, a returned geometry has exactly 2 or exactly 4 points. *)
Theorem zero_size_box_is_degenerate_segment :
  (forall x y width height : float,
     is_zero width = true -> is_zero height = true ->
     is_finite x = true -> is_finite y = true ->
     exists xi yi,
       to_int x = Ok xi /\ to_int y = Ok yi /\
       bbox_to_wall_line x y width height = Ok [(xi, yi); (xi, yi)]) /\
  (forall x y width height pts,
     bbox_to_wall_line x y width height = Ok pts ->
     length pts = 2%nat \/ length pts = 4%nat).
Proof.
  split; [|apply bbox_length].
  intros x y width height Hw Hh Hx Hy.
  destruct (to_int_finite x Hx) as [xi Hxi], (to_int_finite y Hy) as [yi Hyi].
  exists xi, yi. repeat split; trivial.
  unfold bbox_to_wall_line.
  rewrite !sub_zero_to_int, !add_zero_to_int, Hxi, Hyi by assumption.
  simpl.
  replace (geb width (mul two height)) with true
    by (destruct width, height; try discriminate; reflexivity).
  now rewrite half_of_double.
Qed.

(** C5. With corners [x1 = int(x - width/2)], [y1 = int(y - height/2)],
    [x2 = int(x + width/2)], [y2 = int(y + height/2)] (truncation toward
    zero), the heuristic returns the horizontal 2-point segment at
    [(y1+y2)//2] when [width >= 2*height], else the vertical 2-point segment
    at [(x1+x2)//2] when [height >= 2*width], else the 4-point rectangle;
    the three worked examples of the specification follow. *)
Theorem bbox_to_wall_line_cases :
  (forall (x y width height : float) (x1 y1 x2 y2 : Z),
     to_int (sub x (div width two)) = Ok x1 ->
     to_int (sub y (div height two)) = Ok y1 ->
     to_int (add x (div width two)) = Ok x2 ->
     to_int (add y (div height two)) = Ok y2 ->
     bbox_to_wall_line x y width height =
       Ok (if geb width (mul two height) then
             [(x1, (y1 + y2) / 2); (x2, (y1 + y2) / 2)]
           else if geb height (mul two width) then
             [((x1 + x2) / 2, y1); ((x1 + x2) / 2, y2)]
           else
             [(x1, y1); (x2, y1); (x2, y2); (x1, y2)])) /\
  bbox_to_wall_line (of_Z 50) (of_Z 50) (of_Z 100) (of_Z 10)
    = Ok [(0, 50); (100, 50)] /\
  bbox_to_wall_line (of_Z 50) (of_Z 50) (of_Z 10) (of_Z 100)
    = Ok [(50, 0); (50, 100)] /\
  bbox_to_wall_line (of_Z 50) (of_Z 50) (of_Z 20) (of_Z 20)
    = Ok [(40, 40); (60, 40); (60, 60); (40, 60)].
Proof.
  split; [|repeat split; vm_compute; reflexivity].
  intros x y width height x1 y1 x2 y2 Hx1 Hy1 Hx2 Hy2.
  unfold bbox_to_wall_line. rewrite Hx1, Hy1, Hx2, Hy2. simpl.
  destruct (geb width (mul two height)); [reflexivity|].
  destruct (geb height (mul two width)); reflexivity.
Qed.

(** A box centred at (-3.5, 7.25) of size 4 x 3: the corners -5.5, 5.75,
    -1.5 and 8.75 truncate to -5, 5, -1 and 8. *)
Lemma bbox_to_wall_line_cases_witness :
  bbox_to_wall_line Examples.fm3_5 Examples.f7_25 (of_Z 4) (of_Z 3)
  = Ok [(-5, 5); (-1, 5); (-1, 8); (-5, 8)].
Proof.
  exact (proj1 bbox_to_wall_line_cases
           Examples.fm3_5 Examples.f7_25 (of_Z 4) (of_Z 3) (-5) 5 (-1) 8
           eq_refl eq_refl eq_refl eq_refl).
Defined.

Lemma zero_size_box_is_degenerate_segment_witness :
  (exists xi yi,
     to_int (of_Z 12) = Ok xi /\ to_int Examples.fm3_5 = Ok yi /\
     bbox_to_wall_line (of_Z 12) Examples.fm3_5 (S754_zero false) (S754_zero true)
     = Ok [(xi, yi); (xi, yi)]) /\
  (length [(40, 40); (60, 40); (60, 60); (40, 60)] = 2%nat \/
   length [(40, 40); (60, 40); (60, 60); (40, 60)] = 4%nat).
Proof.
  split.
  - exact (proj1 zero_size_box_is_degenerate_segment
             (of_Z 12) Examples.fm3_5 (S754_zero false) (S754_zero true)
             eq_refl eq_refl eq_refl eq_refl).
  - apply (proj2 zero_size_box_is_degenerate_segment
             (of_Z 50) (of_Z 50) (of_Z 20) (of_Z 20)).
    vm_compute. reflexivity.
Defined.

(** * Properties of the wall extractor *)

Section ExtractorFacts.
Context {rt : PyBuiltins}.
Implicit Types (thr : float) (pred : PyVal) (walls : list wall)
  (log : list event).

Lemma walls_loop_app thr pre post walls n log walls' n' log' :
  loop_state thr pre walls n log = Some (walls', n', log') ->
  walls_loop thr (pre ++ post) walls n log = walls_loop thr post walls' n' log'.
Proof.
  revert walls n log.
  induction pre as [|p pre IH]; intros walls n log; simpl.
  - now intros [= -> -> ->].
  - destruct (prediction_body thr n p) as [[w|]|e]; try apply IH.
    destruct (handled e); [apply IH | discriminate].
Qed.

Lemma walls_loop_returns thr pre walls n log l ws :
  walls_loop thr pre walls n log = (l, Ok ws) ->
  exists n' log',
    loop_state thr pre walls n log = Some (ws, n', log') /\
    l = log' ++ [InfoWallsFound (length ws)].
Proof.
  revert walls n log.
  induction pre as [|p pre IH]; intros walls n log; simpl.
  - intros [= <- <-]. eauto.
  - destruct (prediction_body thr n p) as [[w|]|e]; try apply IH.
    destruct (handled e); [apply IH | discriminate].
Qed.

Lemma wall_ids_S k :
  wall_ids (S k) = wall_ids k ++ ["w" +:+ pretty (Z.of_nat (S k))].
Proof. unfold wall_ids. now rewrite seq_S, fmap_app. Qed.

Lemma prediction_body_id thr n pred w :
  prediction_body thr n pred = Ok (Some w) -> w_id w = "w" +:+ pretty n.
Proof.
  unfold prediction_body. intros H.
  repeat match type of H with
         | (_ ≫= _) = _ => unfold mbind at 1, result_bind at 1 in H
         | match ?r with _ => _ end = _ => destruct r; try discriminate
         | (if ?b then _ else _) = _ => destruct b; try discriminate
         end.
  now injection H as <-.
Qed.

Lemma numbered_step thr n pred w walls :
  numbered walls n ->
  prediction_body thr n pred = Ok (Some w) ->
  numbered (walls ++ [w]) (n + 1).
Proof.
  intros [Hn Hids] Hw. apply prediction_body_id in Hw.
  split.
  - rewrite length_app. simpl. lia.
  - rewrite fmap_app, length_app, Hids. simpl.
    rewrite Nat.add_1_r, wall_ids_S, Hw, Hn. reflexivity.
Qed.

Lemma loop_state_numbered thr pre walls n log walls' n' log' :
  numbered walls n ->
  loop_state thr pre walls n log = Some (walls', n', log') ->
  numbered walls' n'.
Proof.
  revert walls n log.
  induction pre as [|p pre IH]; intros walls n log Hnum; simpl.
  - now intros [= <- <- <-].
  - destruct (prediction_body thr n p) as [[w|]|e] eqn:Hp.
    + apply IH. eapply numbered_step; eauto.
    + now apply IH.
    + destruct (handled e); [now apply IH | discriminate].
Qed.

Lemma wall_ids_NoDup k : NoDup (wall_ids k).
Proof.
  unfold wall_ids. apply NoDup_fmap_2; [|apply NoDup_seq].
  intros i j H. injection H as H. apply pretty_Z_inj in H. lia.
Qed.

End ExtractorFacts.

(** * The extraction loop *)

Section ExtractorClaims.
Context {rt : PyBuiltins}.
Implicit Types (thr : float) (pred : PyVal) (d : gmap string PyVal).

Lemma below_threshold_skipped thr n pred :
  below_threshold thr pred = true -> prediction_body thr n pred = Ok None.
Proof.
  unfold below_threshold, prediction_body.
  destruct pred; simpl; try discriminate.
  destruct (py_float _); simpl; [|discriminate].
  now intros ->.
Qed.

Lemma walls_loop_filter thr preds walls n log :
  walls_loop thr (filter (fun p => negb (below_threshold thr p)) preds) walls n log
  = walls_loop thr preds walls n log.
Proof.
  revert walls n log. induction preds as [|p preds IH]; intros; [reflexivity|].
  destruct (below_threshold thr p) eqn:Hb.
  - rewrite filter_cons_False by (rewrite Hb; intros []).
    simpl. now rewrite IH, (below_threshold_skipped _ _ _ Hb).
  - rewrite filter_cons_True by (rewrite Hb; exact I).
    simpl.
    destruct (prediction_body thr n p) as [[w|]|e]; try apply IH.
    destruct (handled e); [apply IH | reflexivity].
Qed.

Lemma prediction_body_emits thr n d c x y width height pts :
  py_float (field d "confidence" (PFloat zero)) = Ok c ->
  ltb c thr = false ->
  str_contains "wall" (str_lower (py_str (field d "class" (PStr "")))) = true ->
  py_float (field d "x" (PInt 0)) = Ok x ->
  py_float (field d "y" (PInt 0)) = Ok y ->
  py_float (field d "width" (PInt 0)) = Ok width ->
  py_float (field d "height" (PInt 0)) = Ok height ->
  bbox_to_wall_line x y width height = Ok pts ->
  prediction_body thr n (PDict d)
  = Ok (Some {| w_id := "w" +:+ pretty n; w_points := pts; w_confidence := c |}).
Proof.
  unfold prediction_body, field.
  intros Hc Hlt Hcls Hx Hy Hw Hh Hpts.
  cbn [py_get mbind result_bind]. rewrite Hc. cbn [mbind result_bind].
  rewrite Hlt, Hcls. cbn [negb]. rewrite Hx. cbn [mbind result_bind].
  rewrite Hy. cbn [mbind result_bind]. rewrite Hw. cbn [mbind result_bind].
  rewrite Hh. cbn [mbind result_bind]. rewrite Hpts. reflexivity.
Qed.

End ExtractorClaims.

Section ExtractorTheorems.
Context {rt : PyBuiltins}.
Implicit Types (thr : float) (pred : PyVal) (d : gmap string PyVal).

Lemma numbered_nil : numbered [] 1.
Proof. split; reflexivity. Qed.

Lemma compare_eq_not_lt (c thr : float) :
  SFcompare c thr = Some Eq -> ltb c thr = false.
Proof. unfold ltb, SFltb. now intros ->. Qed.

(** C6. Predictions whose confidence is strictly below the threshold emit
    nothing: each one is a [continue], and deleting all of them from the
    input leaves the output unchanged. A prediction that is otherwise valid
    (class containing "wall", convertible coordinates) and whose confidence
    compares equal to the threshold is emitted: appended to any input, it
    appends exactly its wall to the output. *)
Theorem threshold_is_inclusive thr :
  (forall pred n,
     below_threshold thr pred = true -> prediction_body thr n pred = Ok None) /\
  (forall preds,
     extract_walls (filter (fun p => negb (below_threshold thr p)) preds) thr
     = extract_walls preds thr) /\
  (forall pre d c x y width height pts ws,
     py_float (field d "confidence" (PFloat zero)) = Ok c ->
     SFcompare c thr = Some Eq ->
     str_contains "wall" (str_lower (py_str (field d "class" (PStr "")))) = true ->
     py_float (field d "x" (PInt 0)) = Ok x ->
     py_float (field d "y" (PInt 0)) = Ok y ->
     py_float (field d "width" (PInt 0)) = Ok width ->
     py_float (field d "height" (PInt 0)) = Ok height ->
     bbox_to_wall_line x y width height = Ok pts ->
     (extract_walls pre thr).2 = Ok ws ->
     (extract_walls (pre ++ [PDict d]) thr).2
     = Ok (ws ++ [{| w_id := "w" +:+ pretty (Z.of_nat (S (length ws)));
                     w_points := pts;
                     w_confidence := c |}])).
Proof.
  split; [|split].
  - intros pred n. apply below_threshold_skipped.
  - intros preds. apply walls_loop_filter.
  - intros pre d c x y width height pts ws Hc Heq Hcls Hx Hy Hw Hh Hpts Hpre.
    unfold extract_walls in *.
    destruct (walls_loop thr pre [] 1 []) as [l r] eqn:Hrun.
    simpl in Hpre. subst r.
    destruct (walls_loop_returns _ _ _ _ _ _ _ Hrun) as (n' & log' & Hst & _).
    destruct (loop_state_numbered _ _ _ _ _ _ _ _ numbered_nil Hst) as [-> _].
    rewrite (walls_loop_app _ _ _ _ _ _ _ _ _ Hst). simpl.
    rewrite (prediction_body_emits thr _ d c x y width height pts);
      auto using compare_eq_not_lt.
Qed.

(** C7. The ids of the returned walls are "w1", "w2", ..., "wK" in output
    order, K being the number of returned walls, whatever was skipped; in
    particular they are pairwise distinct. *)
Theorem wall_ids_are_sequential (preds : list PyVal) thr log ws :
  extract_walls preds thr = (log, Ok ws) ->
  w_id <$> ws = wall_ids (length ws) /\ NoDup (w_id <$> ws).
Proof.
  unfold extract_walls. intros Hrun.
  destruct (walls_loop_returns _ _ _ _ _ _ _ Hrun) as (n' & log' & Hst & _).
  destruct (loop_state_numbered _ _ _ _ _ _ _ _ numbered_nil Hst) as [_ Hids].
  split; [exact Hids|]. rewrite Hids. apply wall_ids_NoDup.
Qed.

(** C3 (amended). A prediction without a [confidence] entry is processed
    as if its confidence were 0.0. A prediction whose confidence is present
    but makes [float] raise [TypeError] or [ValueError] is skipped with a
    logged warning: no wall is emitted for it and the counter and the walls
    collected so far are unchanged. *)
Theorem confidence_absent_or_unconvertible thr d :
  (d !! "confidence" = None ->
   forall n,
     prediction_body thr n (PDict d)
     = prediction_body thr n (PDict (<["confidence" := PFloat zero]> d))) /\
  (forall e,
     py_float (field d "confidence" (PFloat zero)) = Raise e ->
     handled e = true ->
     forall rest walls n log,
       walls_loop thr (PDict d :: rest) walls n log
       = walls_loop thr rest walls n (log ++ [WarnPrediction e])).
Proof.
  split.
  - intros Habs n. unfold prediction_body, py_get.
    rewrite lookup_insert_eq, Habs, !lookup_insert_ne by discriminate.
    reflexivity.
  - intros e He Hh rest walls n log. simpl.
    unfold prediction_body, field in *. cbn [py_get mbind result_bind].
    rewrite He. cbn [mbind result_bind]. now rewrite Hh.
Qed.

End ExtractorTheorems.

(** * File discovery *)

Lemma endswith_upper (s ext : string) :
  str_endswith s ext = true -> has_ascii_upper ext = true ->
  has_ascii_upper s = true.
Proof.
  induction s as [|c t IH]; simpl; intros Hend Hup.
  - destruct (decide ("" = ext)) as [<-|]; [exact Hup | discriminate].
  - destruct (decide (String c t = ext)) as [<-|]; [exact Hup|].
    rewrite (IH Hend Hup). apply orb_true_r.
Qed.

Section FileDiscoveryFacts.
Context {rt : PyBuiltins}.

Lemma upper_entry_never_matches (filename ext : string) :
  has_ascii_upper ext = true -> str_endswith (str_lower filename) ext = false.
Proof.
  intros Hup. destruct (str_endswith (str_lower filename) ext) eqn:Hend; [|reflexivity].
  pose proof (endswith_upper _ _ Hend Hup) as H.
  now rewrite str_lower_no_upper in H.
Qed.

Lemma upper_entries_never_match (extensions : list string) (filename : string) :
  Forall (fun ext => has_ascii_upper ext = true) extensions ->
  has_image_extension extensions filename = false.
Proof.
  unfold has_image_extension.
  induction 1 as [|ext exts Hup _ IH]; simpl; [reflexivity|].
  now rewrite (upper_entry_never_matches _ _ Hup), IH.
Qed.

Lemma image_files_loop_upper directory (extensions names : list string) :
  Forall (fun ext => has_ascii_upper ext = true) extensions ->
  image_files_loop directory extensions names = [].
Proof.
  intros Hup. induction names as [|n names IH]; simpl; [reflexivity|].
  now rewrite (upper_entries_never_match _ _ Hup).
Qed.

(** C10. The lowercased file name is compared with the allow-list entries
    as they are given. An entry containing an uppercase (ASCII) letter is
    the suffix of no lowercased name, so a tuple made of such entries, for
    instance ('.JPG',), selects no file of any directory; an entry that
    does select a file contains no uppercase letter. *)
Theorem uppercase_extensions_match_nothing :
  (forall filename ext,
     has_ascii_upper ext = true ->
     str_endswith (str_lower filename) ext = false) /\
  (forall fs directory extensions events image_files,
     Forall (fun ext => has_ascii_upper ext = true) extensions ->
     get_image_files fs directory (Some extensions) = (events, Ok image_files) ->
     image_files = []) /\
  (forall filename ext,
     str_endswith (str_lower filename) ext = true ->
     has_ascii_upper ext = false).
Proof.
  split; [|split].
  - apply upper_entry_never_matches.
  - intros fs directory extensions events image_files Hup.
    unfold get_image_files. simpl.
    destruct (fs_exists fs directory); simpl; [|now intros [= _ <-]].
    destruct (fs_isdir fs directory); simpl; [|discriminate].
    destruct (fs_listdir fs directory); [|discriminate].
    rewrite image_files_loop_upper by assumption. now intros [= _ <-].
  - intros filename ext Hend.
    destruct (has_ascii_upper ext) eqn:Hup; [|reflexivity].
    now rewrite upper_entry_never_matches in Hend.
Qed.

End FileDiscoveryFacts.

(** * Colour conversion *)

Lemma fresh_loc_unused (s : state) : arrays s !! fresh_loc s = None.
Proof. unfold fresh_loc. apply not_elem_of_dom. apply is_fresh. Qed.


(** * Result schema and orchestrator *)

Lemma model_dump_meta_keys (r : Schemas.FloorPlanResult) :
  exists m : gmap string PyVal,
    Schemas.model_dump r !! "meta" = Some (PDict m) /\
    dom m = {[ "source"; "shape" ]} /\
    m !! "model_id" = None.
Proof.
  exists (Schemas.Metadata_dump (Schemas.meta r)).
  unfold Schemas.model_dump, Schemas.Metadata_dump. split; [|split].
  - apply lookup_insert_eq.
  - rewrite dom_insert_L, dom_singleton_L. reflexivity.
  - rewrite lookup_insert_ne by discriminate. now rewrite lookup_singleton_ne.
Qed.

Lemma run_for_each_raise {A} (body : A -> M ()) x rest s e s' :
  run (body x) s = (Raise e, s') ->
  run (for_each (x :: rest) body) s = (Raise e, s').
Proof. intros H. simpl. unfold mbind, M_bind. simpl. now rewrite H. Qed.


(** * Which steps can touch the result files *)

(** [keeps_json m]: running [m] never changes the set of JSON files. *)
Definition keeps_json {A} (m : M A) : Prop :=
  forall s, json_files (run m s).2 = json_files s.

(** [raises_clean m]: when [m] raises, no JSON file has been written. *)
Definition raises_clean {A} (m : M A) : Prop :=
  forall s e s', run m s = (Raise e, s') -> json_files s' = json_files s.

(** [never_raises m]: [m] always returns. *)
Definition never_raises {A} (m : M A) : Prop :=
  forall s, exists a s', run m s = (Ok a, s').

Lemma run_bind {A B} (m : M A) (k : A -> M B) s :
  run (m ≫= k) s =
  match run m s with
  | (Ok a, s') => run (k a) s'
  | (Raise e, s') => (Raise e, s')
  end.
Proof. reflexivity. Qed.

Lemma keeps_json_ret {A} (a : A) : keeps_json (mret a).
Proof. intros s. reflexivity. Qed.

Lemma keeps_json_bind {A B} (m : M A) (k : A -> M B) :
  keeps_json m -> (forall a, keeps_json (k a)) -> keeps_json (m ≫= k).
Proof.
  intros Hm Hk s. rewrite run_bind. specialize (Hm s).
  destruct (run m s) as [[a|e] s1]; simpl in *; [|exact Hm].
  now rewrite Hk.
Qed.

Lemma keeps_json_try_except {A} (body : M A) (handler : exn -> M A) :
  keeps_json body -> (forall e, keeps_json (handler e)) ->
  keeps_json (try_except body handler).
Proof.
  intros Hb Hh s. unfold try_except. simpl. specialize (Hb s).
  destruct (run body s) as [[a|e] s1]; simpl in *; [exact Hb|].
  now rewrite Hh.
Qed.

Lemma keeps_json_raise {A} e : keeps_json (raise (A := A) e).
Proof. intros s. reflexivity. Qed.

Lemma keeps_json_lift {A} (r : result A) : keeps_json (lift r).
Proof. intros s. reflexivity. Qed.

Lemma keeps_json_logger ev : keeps_json (logger ev).
Proof. intros s. reflexivity. Qed.

Lemma keeps_json_alloc a : keeps_json (alloc a).
Proof. intros s. reflexivity. Qed.

Lemma keeps_json_deref l : keeps_json (deref l).
Proof. intros s. unfold deref. simpl. now destruct (arrays s !! l). Qed.

Lemma keeps_json_store l a : keeps_json (store l a).
Proof. intros s. reflexivity. Qed.

Lemma keeps_json_write_png path a : keeps_json (write_png path a).
Proof. intros s. reflexivity. Qed.

Lemma keeps_json_pass : keeps_json pass.
Proof. intros s. reflexivity. Qed.

Lemma keeps_json_for_each {A} (l : list A) (body : A -> M ()) :
  (forall x, keeps_json (body x)) -> keeps_json (for_each l body).
Proof.
  intros Hb. induction l as [|x l IH]; simpl.
  - apply keeps_json_pass.
  - apply keeps_json_bind; auto.
Qed.

Create HintDb frame.
#[global] Hint Resolve keeps_json_ret keeps_json_raise keeps_json_lift
  keeps_json_logger keeps_json_alloc keeps_json_deref keeps_json_store
  keeps_json_write_png keeps_json_pass : frame.

(** Decompose a computation built from binds, handlers, loops and case
    distinctions into its primitive steps. *)
Ltac frame :=
  repeat first
    [ progress auto with frame
    | apply keeps_json_bind
    | apply keeps_json_try_except
    | apply keeps_json_for_each
    | match goal with
      | |- forall _, _ => intro
      | |- keeps_json (match ?x with _ => _ end) => destruct x
      end ].

Lemma keeps_json_read_image env image_path :
  keeps_json (read_image env image_path).
Proof. unfold read_image. frame. Qed.

Lemma keeps_json_ensure_color_image image :
  keeps_json (ensure_color_image image).
Proof. unfold ensure_color_image. frame. Qed.

Lemma keeps_json_get_image_dimensions image :
  keeps_json (get_image_dimensions image).
Proof. unfold get_image_dimensions. frame. Qed.

Lemma keeps_json_visualize_walls env image walls :
  keeps_json (visualize_walls env image walls).
Proof. unfold visualize_walls. frame. Qed.

Lemma keeps_json_infer_image env client image_path :
  keeps_json (infer_image env client image_path).
Proof. unfold infer_image. frame. Qed.

Lemma keeps_json_logged {A} (r : list event * result A) :
  keeps_json (logged r).
Proof. unfold logged. frame. Qed.

Lemma keeps_json_clean {A} (m : M A) : keeps_json m -> raises_clean m.
Proof. intros Hm s e s' Hrun. specialize (Hm s). now rewrite Hrun in Hm. Qed.

Lemma raises_clean_bind {A B} (m : M A) (k : A -> M B) :
  keeps_json m -> (forall a, raises_clean (k a)) -> raises_clean (m ≫= k).
Proof.
  intros Hm Hk s e s'. rewrite run_bind. specialize (Hm s).
  destruct (run m s) as [[a|e1] s1]; simpl in Hm.
  - intros Hrun. rewrite <- Hm. eapply Hk, Hrun.
  - now intros [= _ <-].
Qed.

Lemma never_raises_try_except {A} (body : M A) (handler : exn -> M A) :
  (forall e, never_raises (handler e)) -> never_raises (try_except body handler).
Proof.
  intros Hh s. unfold try_except. simpl.
  destruct (run body s) as [[a|e] s1]; [eauto | apply Hh].
Qed.

Section OrchestratorFacts.
Context {rt : PyBuiltins} (env : environment) (settings : Settings).

Lemma save_debug_never_raises image_path debug_path image :
  never_raises (save_debug env image_path debug_path image).
Proof.
  unfold save_debug. apply never_raises_try_except.
  intros e s. eexists _, _. reflexivity.
Qed.

Lemma save_result_raises_clean image_path output_path doc :
  raises_clean (save_result env image_path output_path doc).
Proof.
  intros s e s'. unfold save_result, try_except_IOError, try_except. simpl.
  destruct (open_w env output_path) as [[]|e0]; simpl; [discriminate|].
  destruct e0; simpl; try discriminate; now intros [= _ <-].
Qed.

Lemma save_both_raises_clean image_path output_path doc debug_path image :
  raises_clean (save_result env image_path output_path doc ;;
                save_debug env image_path debug_path image).
Proof.
  intros s e s'. rewrite run_bind.
  destruct (run (save_result env image_path output_path doc) s)
    as [[[]|e1] s1] eqn:Hsave.
  - destruct (save_debug_never_raises image_path debug_path image s1)
      as ([] & s2 & ->). discriminate.
  - intros [= _ <-]. eapply save_result_raises_clean, Hsave.
Qed.

(** An exception that leaves [process_single_image] left it before any
    JSON file was written. *)
Lemma process_single_image_raises_clean image_path client :
  raises_clean (process_single_image env settings image_path client).
Proof.
  unfold process_single_image.
  apply raises_clean_bind; [frame | intros _].
  apply raises_clean_bind; [apply keeps_json_read_image | intros image].
  destruct image as [l|]; [|apply keeps_json_clean; frame].
  apply raises_clean_bind; [apply keeps_json_ensure_color_image | intros vis].
  apply raises_clean_bind; [apply keeps_json_get_image_dimensions | intros dims].
  destruct dims as [|height [|width [|]]];
    try (apply keeps_json_clean; solve [frame]).
  apply raises_clean_bind.
  { apply keeps_json_try_except; [|frame].
    apply keeps_json_bind; [apply keeps_json_infer_image | frame]. }
  intros [detection_result|]; [|apply keeps_json_clean; frame].
  apply raises_clean_bind; [frame | intros predictions].
  apply raises_clean_bind; [frame | intros items].
  apply raises_clean_bind; [apply keeps_json_logged | intros walls].
  apply raises_clean_bind; [apply keeps_json_visualize_walls | intros vis'].
  apply raises_clean_bind; [frame | intros result].
  apply save_both_raises_clean.
Qed.

(** An exception raised by [visualize_walls] is raised by
    [process_single_image]. *)
Lemma overlay_exception_propagates image_path client
    s s1 s2 s3 s4 s5 l vis height width detection_result items walls e :
  run (logger (InfoStart image_path) ;; read_image env image_path) s
    = (Ok (Some l), s1) ->
  run (ensure_color_image (Some l)) s1 = (Ok vis, s2) ->
  run (get_image_dimensions (Some l)) s2 = (Ok [height; width], s2) ->
  run (infer_image env client image_path) s2 = (Ok detection_result, s3) ->
  py_get detection_result "predictions" (PList []) ≫= py_iter = Ok items ->
  run (logged (extract_walls items (CONFIDENCE_THRESHOLD settings))) s3
    = (Ok walls, s4) ->
  run (visualize_walls env (Some vis) walls) s4 = (Raise e, s5) ->
  run (process_single_image env settings image_path client) s = (Raise e, s5).
Proof.
  intros Hread Hcolor Hdims Hinfer Hitems Hwalls Hvis.
  unfold process_single_image.
  rewrite run_bind in Hread. rewrite run_bind.
  destruct (run (logger (InfoStart image_path)) s) as [[[]|?] s0];
    [|discriminate].
  rewrite run_bind, Hread, run_bind, Hcolor, run_bind, Hdims, run_bind.
  unfold try_except at 1. cbn [run].
  rewrite run_bind, Hinfer. cbn [run mret M_ret].
  destruct (py_get detection_result "predictions" (PList [])) as [predictions|];
    [|discriminate].
  cbn [mbind result_bind] in Hitems.
  rewrite run_bind. cbn [run lift]. rewrite run_bind. cbn [run lift].
  rewrite Hitems, run_bind, Hwalls, run_bind, Hvis. reflexivity.
Qed.

End OrchestratorFacts.

(** [only_dumps_added s s']: every JSON file of [s'] was already there in
    [s] or holds the dump of a [FloorPlanResult]. *)
Definition only_dumps_added (s s' : state) : Prop :=
  forall path doc,
    json_files s' !! path = Some doc ->
    json_files s !! path = Some doc \/
    exists r, doc = PDict (Schemas.model_dump r).

Definition writes_dumps {A} (m : M A) : Prop :=
  forall s, only_dumps_added s (run m s).2.

Lemma keeps_json_writes_dumps {A} (m : M A) : keeps_json m -> writes_dumps m.
Proof. intros Hm s path doc. rewrite Hm. now left. Qed.

Lemma writes_dumps_bind {A B} (m : M A) (k : A -> M B) :
  writes_dumps m -> (forall a, writes_dumps (k a)) -> writes_dumps (m ≫= k).
Proof.
  intros Hm Hk s path doc. rewrite run_bind. specialize (Hm s).
  destruct (run m s) as [[a|e] s1]; simpl in *; [|apply Hm].
  intros Hdoc. destruct (Hk a s1 path doc Hdoc) as [Hold|Hnew]; auto.
Qed.

Lemma writes_dumps_for_each {A} (l : list A) (body : A -> M ()) :
  (forall x, writes_dumps (body x)) -> writes_dumps (for_each l body).
Proof.
  intros Hb. induction l as [|x l IH]; simpl.
  - apply keeps_json_writes_dumps, keeps_json_pass.
  - apply writes_dumps_bind; auto.
Qed.

Section WrittenDocuments.
Context {rt : PyBuiltins} (env : environment) (settings : Settings).

Lemma save_result_writes_dumps image_path output_path r :
  writes_dumps
    (save_result env image_path output_path (PDict (Schemas.model_dump r))).
Proof.
  intros s path doc. unfold save_result, try_except_IOError, try_except. simpl.
  destruct (open_w env output_path) as [[]|e0]; simpl.
  - destruct (decide (output_path = path)) as [->|Hne].
    + rewrite lookup_insert_eq. intros [= <-]. right. eauto.
    + rewrite lookup_insert_ne by assumption. now left.
  - destruct e0; simpl; now left.
Qed.

Lemma process_single_image_writes_dumps image_path client :
  writes_dumps (process_single_image env settings image_path client).
Proof.
  unfold process_single_image.
  apply writes_dumps_bind; [apply keeps_json_writes_dumps; frame | intros _].
  apply writes_dumps_bind;
    [apply keeps_json_writes_dumps, keeps_json_read_image | intros image].
  destruct image as [l|]; [|apply keeps_json_writes_dumps; frame].
  apply writes_dumps_bind;
    [apply keeps_json_writes_dumps, keeps_json_ensure_color_image | intros vis].
  apply writes_dumps_bind;
    [apply keeps_json_writes_dumps, keeps_json_get_image_dimensions | intros dims].
  destruct dims as [|height [|width [|]]];
    try (apply keeps_json_writes_dumps; solve [frame]).
  apply writes_dumps_bind.
  { apply keeps_json_writes_dumps, keeps_json_try_except; [|frame].
    apply keeps_json_bind; [apply keeps_json_infer_image | frame]. }
  intros [detection_result|]; [|apply keeps_json_writes_dumps; frame].
  apply writes_dumps_bind; [apply keeps_json_writes_dumps; frame | intros predictions].
  apply writes_dumps_bind; [apply keeps_json_writes_dumps; frame | intros items].
  apply writes_dumps_bind;
    [apply keeps_json_writes_dumps, keeps_json_logged | intros walls].
  apply writes_dumps_bind;
    [apply keeps_json_writes_dumps, keeps_json_visualize_walls | intros vis'].
  apply writes_dumps_bind; [apply keeps_json_writes_dumps; frame | intros result].
  apply writes_dumps_bind; [apply save_result_writes_dumps | intros _].
  apply keeps_json_writes_dumps. unfold save_debug. frame.
Qed.

Lemma main_writes_dumps : writes_dumps (main env settings).
Proof.
  unfold main, ensure_directory_exists.
  apply writes_dumps_bind; [apply keeps_json_writes_dumps; frame | intros _].
  apply writes_dumps_bind; [apply keeps_json_writes_dumps; frame | intros _].
  apply writes_dumps_bind; [apply keeps_json_writes_dumps; frame | intros _].
  apply writes_dumps_bind;
    [apply keeps_json_writes_dumps, keeps_json_logged | intros image_files].
  apply writes_dumps_bind; [apply keeps_json_writes_dumps; frame | intros _].
  destruct image_files as [|p rest]; [apply keeps_json_writes_dumps; frame|].
  apply writes_dumps_bind; [|intros _; apply keeps_json_writes_dumps; frame].
  apply writes_dumps_for_each. intros image_path.
  apply process_single_image_writes_dumps.
Qed.

End WrittenDocuments.

Section OrchestratorClaims.
Context {rt : PyBuiltins} (env : environment) (settings : Settings).

(** C1 (evaluation of the code). Every JSON document that a run of the
    program writes has a [meta] object whose keys are exactly "source" and
    "shape": the model identifier passed by the orchestrator is dropped by
    the schema and is not part of any result file. *)
Theorem written_meta_has_no_model_id (s : state) (path : string) (doc : PyVal) :
  json_files (run (main env settings) s).2 !! path = Some doc ->
  json_files s !! path = Some doc \/
  exists fields m : gmap string PyVal,
    doc = PDict fields /\
    fields !! "meta" = Some (PDict m) /\
    dom m = {[ "source"; "shape" ]} /\
    m !! "model_id" = None.
Proof.
  intros Hdoc.
  destruct (main_writes_dumps env settings s path doc Hdoc) as [Hold|[r ->]];
    [now left | right].
  destruct (model_dump_meta_keys r) as (m & Hmeta & Hdom & Hid).
  eauto 6.
Qed.

(** C2 (evaluation of the code). When every stage up to wall extraction
    succeeds for an image and rendering the overlay raises [e], then
    [process_single_image] raises [e], the JSON files are those that
    existed before the image was started, and the loop of [main] over this
    image and any remaining ones raises [e] in the same state, without
    starting the remaining images. *)
Theorem overlay_failure_aborts_batch (image_path : string) (client : RoboflowClient)
    s s1 s2 s3 s4 s5 l vis height width detection_result items walls e :
  run (logger (InfoStart image_path) ;; read_image env image_path) s
    = (Ok (Some l), s1) ->
  run (ensure_color_image (Some l)) s1 = (Ok vis, s2) ->
  run (get_image_dimensions (Some l)) s2 = (Ok [height; width], s2) ->
  run (infer_image env client image_path) s2 = (Ok detection_result, s3) ->
  py_get detection_result "predictions" (PList []) ≫= py_iter = Ok items ->
  run (logged (extract_walls items (CONFIDENCE_THRESHOLD settings))) s3
    = (Ok walls, s4) ->
  run (visualize_walls env (Some vis) walls) s4 = (Raise e, s5) ->
  run (process_single_image env settings image_path client) s = (Raise e, s5) /\
  json_files s5 = json_files s /\
  forall rest,
    run (for_each (image_path :: rest)
           (fun p => process_single_image env settings p client)) s
    = (Raise e, s5).
Proof.
  intros Hread Hcolor Hdims Hinfer Hitems Hwalls Hvis.
  pose proof (overlay_exception_propagates env settings image_path client
                _ _ _ _ _ _ _ _ _ _ _ _ _ _
                Hread Hcolor Hdims Hinfer Hitems Hwalls Hvis) as Hraise.
  split; [exact Hraise|]. split.
  - eapply process_single_image_raises_clean, Hraise.
  - intros rest. now apply run_for_each_raise.
Qed.

End OrchestratorClaims.

(** * Evaluations on the concrete inputs *)

Section Evaluations.
#[local] Existing Instance reference_builtins.
Import Examples.

Lemma threshold_is_inclusive_witness :
  prediction_body f0_2 1 wall_low = Ok None /\
  extract_walls
    (filter (fun p => negb (below_threshold f0_2 p)) [wall_low; wall_09; wall_low])
    f0_2
  = extract_walls [wall_low; wall_09; wall_low] f0_2 /\
  (extract_walls ([wall_low; wall_09] ++ [PDict wall_at_threshold]) f0_2).2
  = Ok ([segment_w 1 f0_9] ++ [segment_w 2 f0_2]).
Proof.
  destruct (threshold_is_inclusive f0_2) as (Hskip & Hfilter & Hemit).
  split; [|split].
  - apply Hskip. vm_compute. reflexivity.
  - apply Hfilter.
  - apply (Hemit [wall_low; wall_09] wall_at_threshold f0_2
             (of_Z 50) (of_Z 50) (of_Z 100) (of_Z 10)
             [(0, 50); (100, 50)] [segment_w 1 f0_9]);
      vm_compute; reflexivity.
Defined.

Lemma wall_ids_are_sequential_witness :
  w_id <$> [segment_w 1 f0_9; segment_w 2 f0_2] = wall_ids 2 /\
  NoDup (w_id <$> [segment_w 1 f0_9; segment_w 2 f0_2]).
Proof.
  apply (wall_ids_are_sequential
           [wall_low; wall_09; PDict wall_na; PDict wall_at_threshold] f0_2
           [WarnPrediction ValueError; InfoWallsFound 2]
           [segment_w 1 f0_9; segment_w 2 f0_2]).
  vm_compute. reflexivity.
Defined.

(** C3 (counterexample). With threshold 0.0, the prediction of class "wall"
    whose confidence is the text "n/a" is not emitted with confidence 0.0:
    [float] raises [ValueError], the handler logs a warning, and the
    returned list is empty. *)
Lemma unconvertible_confidence_is_not_emitted :
  extract_walls [PDict wall_na] zero
  = ([WarnPrediction ValueError; InfoWallsFound 0], Ok []) /\
  ~ (exists ws w,
       (extract_walls [PDict wall_na] zero).2 = Ok ws /\ w ∈ ws /\
       w_confidence w = zero).
Proof.
  split; [vm_compute; reflexivity|].
  intros (ws & w & Hrun & Hin & _).
  vm_compute in Hrun. injection Hrun as <-. inversion Hin.
Qed.

Lemma confidence_absent_or_unconvertible_witness :
  prediction_body zero 1 (PDict wall_no_confidence)
  = prediction_body zero 1
      (PDict (<["confidence" := PFloat zero]> wall_no_confidence)) /\
  walls_loop zero [PDict wall_na; wall_09] [] 1 []
  = walls_loop zero [wall_09] [] 1 ([] ++ [WarnPrediction ValueError]).
Proof.
  split.
  - apply (proj1 (confidence_absent_or_unconvertible zero wall_no_confidence)).
    vm_compute. reflexivity.
  - apply (proj2 (confidence_absent_or_unconvertible zero wall_na) ValueError);
      vm_compute; reflexivity.
Defined.

(** C4 (evaluation of the code). A wall prediction whose [x] is infinite
    (the JSON number 1e999), or an integer too large for a float, makes
    [int] respectively [float] raise [OverflowError], which the handler of
    [extract_walls] does not catch: the call raises and the wall already
    collected from the first prediction is lost. The same list with an
    unparsable confidence instead is processed to the end. *)
Theorem overflow_escapes_the_handler :
  extract_walls [wall_09; wall_inf; wall_09] f0_2 = ([], Raise OverflowError) /\
  extract_walls [wall_09; wall_huge_int; wall_09] f0_2 = ([], Raise OverflowError) /\
  extract_walls [wall_09; PDict wall_na; wall_09] f0_2
  = ([WarnPrediction ValueError; InfoWallsFound 2],
     Ok [segment_w 1 f0_9; segment_w 2 f0_9]).
Proof. repeat split; vm_compute; reflexivity. Qed.

Lemma uppercase_extensions_match_nothing_witness :
  str_endswith (str_lower "PLAN.JPG") ".JPG" = false /\
  (get_image_files (files world) "./images" (Some [".JPG"; ".Png"])
   = ([InfoImagesFound 0 "./images"], Ok []) /\ ([] : list string) = []) /\
  (str_endswith (str_lower "PLAN.JPG") ".jpg" = true /\
   has_ascii_upper ".jpg" = false).
Proof.
  destruct uppercase_extensions_match_nothing as (Hentry & Htuple & Hlower).
  split; [|split].
  - apply Hentry. reflexivity.
  - split; [vm_compute; reflexivity|].
    apply (Htuple (files world) "./images" [".JPG"; ".Png"]
             [InfoImagesFound 0 "./images"] []).
    + repeat constructor.
    + vm_compute. reflexivity.
  - split; [vm_compute; reflexivity|].
    apply (Hlower "PLAN.JPG"). vm_compute. reflexivity.
Defined.

(** The default allow-list is matched whatever the case of the name. *)
Lemma default_extensions_ignore_case :
  get_image_files (files world) "./images" None
  = ([InfoImagesFound 2 "./images"], Ok ["./images/a.png"; "./images/B.JPG"]).
Proof. vm_compute. reflexivity. Qed.



(** The document written for [B.JPG] by a run of the whole program. *)
Lemma written_document_example :
  json_files (run (main calm_world default_settings) initial_state).2
    !! "./out/B.json"
  = Some (PDict
      {[ "meta" := PDict {[ "source" := PStr "B.JPG";
                            "shape" := PList [PInt 1; PInt 2] ]};
         "walls" := PList [PDict {[ "id" := PStr "w1";
                                    "points" := PList [PList [PInt 0; PInt 50];
                                                       PList [PInt 100; PInt 50]];
                                    "confidence" := PFloat f0_9 ]}] ]}).
Proof. vm_compute. reflexivity. Qed.

Lemma written_meta_has_no_model_id_witness :
  json_files initial_state !! "./out/B.json"
  = Some (PDict (Schemas.model_dump
      {| Schemas.meta := {| Schemas.source := "B.JPG"; Schemas.shape := [1; 2] |};
         Schemas.walls := [Schemas.Wall_validate (segment_w 1 f0_9)] |})) \/
  exists fields m : gmap string PyVal,
    PDict (Schemas.model_dump
      {| Schemas.meta := {| Schemas.source := "B.JPG"; Schemas.shape := [1; 2] |};
         Schemas.walls := [Schemas.Wall_validate (segment_w 1 f0_9)] |})
    = PDict fields /\
    fields !! "meta" = Some (PDict m) /\
    dom m = {[ "source"; "shape" ]} /\
    m !! "model_id" = None.
Proof.
  apply (written_meta_has_no_model_id calm_world default_settings initial_state
           "./out/B.json").
  vm_compute. reflexivity.
Defined.

(** In the example world the detection for a.png contains a wall box
    centred at x = 1e20, which [extract_walls] turns into a segment that
    [cv2.line] refuses. *)
Lemma overlay_failure_aborts_batch_witness :
  let client :=
    RoboflowClient_init "" "cubicasa5k-2-qpmsa/6" 60 None in
  exists s5,
    run (process_single_image world default_settings "./images/a.png" client)
      initial_state = (Raise CvError, s5) /\
    json_files s5 = json_files initial_state /\
    forall rest,
      run (for_each ("./images/a.png" :: rest)
             (fun p => process_single_image world default_settings p client))
        initial_state
      = (Raise CvError, s5).
Proof.
  intros client.
  (* run the stages one after the other to name the intermediate states *)
  let r1 := eval vm_compute in
    (run (logger (InfoStart "./images/a.png") ;;
          read_image world "./images/a.png") initial_state) in
  lazymatch r1 with (Ok (Some ?l), ?s1) =>
  let r2 := eval vm_compute in (run (ensure_color_image (Some l)) s1) in
  lazymatch r2 with (Ok ?vis, ?s2) =>
  let r3 := eval vm_compute in (run (get_image_dimensions (Some l)) s2) in
  lazymatch r3 with (Ok [?h; ?w], _) =>
  let r4 := eval vm_compute in
    (run (infer_image world client "./images/a.png") s2) in
  lazymatch r4 with (Ok ?det, ?s3) =>
  let r5 := eval vm_compute in
    (py_get det "predictions" (PList []) ≫= py_iter) in
  lazymatch r5 with Ok ?items =>
  let r6 := eval vm_compute in
    (run (logged (extract_walls items (CONFIDENCE_THRESHOLD default_settings)))
       s3) in
  lazymatch r6 with (Ok ?walls, ?s4) =>
  let r7 := eval vm_compute in
    (run (visualize_walls world (Some vis) walls) s4) in
  lazymatch r7 with (Raise ?e, ?s5) =>
    exists s5;
    apply (overlay_failure_aborts_batch world default_settings
             "./images/a.png" client initial_state s1 s2 s3 s4 s5
             l vis h w det items walls e);
    vm_compute; reflexivity
  end end end end end end end.
Defined.

(** The whole program on the example world: the run ends with the
    exception of the overlay, no result file exists and B.JPG is never
    started, although B.JPG alone is processed to the end. *)
Lemma overlay_failure_in_example_world :
  (exists s,
     run (main world default_settings) initial_state = (Raise CvError, s) /\
     json_files s = ∅ /\
     png_files s = ∅ /\
     log s = [InfoLaunch; InfoImagesFound 2 "./images"; InfoBatch 2;
              InfoStart "./images/a.png"; InfoWallsFound 1]) /\
  (exists s,
     run (main calm_world default_settings) initial_state = (Ok (), s) /\
     is_Some (json_files s !! "./out/B.json") /\
     log s = [InfoLaunch; InfoImagesFound 1 "./images"; InfoBatch 1;
              InfoStart "./images/B.JPG"; InfoWallsFound 1;
              InfoResultSaved "./out/B.json";
              InfoDebugSaved "./out/debug/B_vis.png"; InfoDone]).
Proof.
  split.
  - eexists. split; [vm_compute; reflexivity|].
    repeat split; vm_compute; reflexivity.
  - eexists. split; [vm_compute; reflexivity|].
    split; [|vm_compute; reflexivity].
    eexists. vm_compute. reflexivity.
Qed.

End Evaluations.

(** * Further properties of the wall extractor *)

Section ExtractorMore.
Context {rt : PyBuiltins}.
Implicit Types (thr : float) (pred : PyVal) (walls : list wall)
  (d : gmap string PyVal).

(** What an emitted wall says about the prediction it comes from. *)
Lemma prediction_body_emitted thr n pred w :
  prediction_body thr n pred = Ok (Some w) ->
  exists d,
    pred = PDict d /\ wall_of d w /\
    ltb (w_confidence w) thr = false /\
    w_id w = "w" +:+ pretty n.
Proof.
  unfold prediction_body, wall_of, field. intros H.
  destruct pred as [| | | | |?|d]; try discriminate.
  cbn [py_get mbind result_bind] in H.
  destruct (py_float (default (PFloat zero) (d !! "confidence"))) as [c|] eqn:Hc;
    [|discriminate].
  cbn [mbind result_bind] in H.
  destruct (ltb c thr) eqn:Hlt; [discriminate|].
  destruct (str_contains "wall" _) eqn:Hcls; [|discriminate].
  cbn [negb] in H.
  destruct (py_float (default (PInt 0) (d !! "x"))) as [x|] eqn:Hx; [|discriminate].
  cbn [mbind result_bind] in H.
  destruct (py_float (default (PInt 0) (d !! "y"))) as [y|] eqn:Hy; [|discriminate].
  cbn [mbind result_bind] in H.
  destruct (py_float (default (PInt 0) (d !! "width"))) as [width|] eqn:Hw;
    [|discriminate].
  cbn [mbind result_bind] in H.
  destruct (py_float (default (PInt 0) (d !! "height"))) as [height|] eqn:Hh;
    [|discriminate].
  cbn [mbind result_bind] in H.
  destruct (bbox_to_wall_line x y width height) as [pts|] eqn:Hpts; [|discriminate].
  cbn [mbind result_bind] in H. injection H as <-.
  exists d. cbn. split; [reflexivity|]. split; [|auto].
  exists x, y, width, height. auto 10.
Qed.

Lemma not_a_wall_skipped thr n pred :
  not_a_wall pred = true -> prediction_body thr n pred = Ok None.
Proof.
  unfold not_a_wall, prediction_body, field.
  destruct pred as [| | | | |?|d]; try discriminate.
  cbn [py_get mbind result_bind].
  destruct (py_float _); [|discriminate]. cbn [mbind result_bind].
  intros ->. now destruct (ltb _ _).
Qed.

Lemma walls_loop_filter_classes thr preds walls n log :
  walls_loop thr (filter (fun p => negb (not_a_wall p)) preds) walls n log
  = walls_loop thr preds walls n log.
Proof.
  revert walls n log. induction preds as [|p preds IH]; intros; [reflexivity|].
  destruct (not_a_wall p) eqn:Hb.
  - rewrite filter_cons_False by (rewrite Hb; intros []).
    simpl. now rewrite IH, (not_a_wall_skipped _ _ _ Hb).
  - rewrite filter_cons_True by (rewrite Hb; exact I).
    simpl.
    destruct (prediction_body thr n p) as [[w|]|e]; try apply IH.
    destruct (handled e); [apply IH | reflexivity].
Qed.

(** X1. A prediction whose confidence converts and whose class, lowercased,
    does not contain "wall" emits nothing, whatever the threshold and its
    confidence: it is a [continue], and deleting all such predictions from
    the input changes neither the returned walls nor the log. *)
Theorem non_wall_classes_emit_nothing thr :
  (forall pred n,
     not_a_wall pred = true -> prediction_body thr n pred = Ok None) /\
  (forall preds,
     extract_walls (filter (fun p => negb (not_a_wall p)) preds) thr
     = extract_walls preds thr).
Proof.
  split.
  - intros pred n. apply not_a_wall_skipped.
  - intros preds. apply walls_loop_filter_classes.
Qed.

Lemma loop_state_app thr pre post walls n log :
  loop_state thr (pre ++ post) walls n log
  = match loop_state thr pre walls n log with
    | Some (walls', n', log') => loop_state thr post walls' n' log'
    | None => None
    end.
Proof.
  revert walls n log. induction pre as [|p pre IH]; intros; simpl; [reflexivity|].
  destruct (prediction_body thr n p) as [[w|]|e]; try apply IH.
  destruct (handled e); [apply IH | reflexivity].
Qed.

Lemma loop_state_returns thr preds walls n log walls' n' log' :
  loop_state thr preds walls n log = Some (walls', n', log') ->
  walls_loop thr preds walls n log
  = (log' ++ [InfoWallsFound (length walls')], Ok walls').
Proof.
  revert walls n log. induction preds as [|p preds IH]; intros walls n log; simpl.
  - now intros [= <- <- <-].
  - destruct (prediction_body thr n p) as [[w|]|e]; try apply IH.
    destruct (handled e); [apply IH | discriminate].
Qed.

(** The loop only appends: walls to [walls], warnings for handled
    exceptions to the log, at most one of the two per prediction. *)
Lemma loop_state_grows thr preds walls n log walls' n' log' :
  loop_state thr preds walls n log = Some (walls', n', log') ->
  exists ws es,
    walls' = walls ++ ws /\
    log' = log ++ (WarnPrediction <$> es) /\
    Forall (fun e => handled e = true) es /\
    (length ws + length es <= length preds)%nat.
Proof.
  revert walls n log. induction preds as [|p preds IH]; intros walls n log; simpl.
  - intros [= <- <- <-]. exists [], []. rewrite !app_nil_r. auto.
  - destruct (prediction_body thr n p) as [[w|]|e].
    + intros H. destruct (IH _ _ _ H) as (ws & es & -> & -> & Hes & Hlen).
      exists (w :: ws), es. rewrite <- app_assoc. simpl. repeat split; auto. lia.
    + intros H. destruct (IH _ _ _ H) as (ws & es & -> & -> & Hes & Hlen).
      exists ws, es. repeat split; auto.
    + destruct (handled e) eqn:He; [|discriminate].
      intros H. destruct (IH _ _ _ H) as (ws & es & -> & -> & Hes & Hlen).
      exists ws, (e :: es). rewrite <- app_assoc. simpl.
      repeat split; auto. lia.
Qed.

Lemma loop_state_walls thr (P : wall -> Prop) preds :
  (forall n pred w,
     pred ∈ preds -> prediction_body thr n pred = Ok (Some w) -> P w) ->
  forall walls n log walls' n' log',
    Forall P walls ->
    loop_state thr preds walls n log = Some (walls', n', log') ->
    Forall P walls'.
Proof.
  induction preds as [|p preds IH]; intros HP walls n log walls' n' log' Hall; simpl.
  - now intros [= <- <- <-].
  - assert (HP' : forall n pred w,
              pred ∈ preds -> prediction_body thr n pred = Ok (Some w) -> P w).
    { intros m q w Hq. apply HP. now right. }
    destruct (prediction_body thr n p) as [[w|]|e] eqn:Hp.
    + apply (IH HP'). apply Forall_app. split; [exact Hall|].
      constructor; [|constructor]. eapply HP; [left|exact Hp].
    + now apply (IH HP').
    + destruct (handled e); [now apply (IH HP') | discriminate].
Qed.

(** X2. Every returned wall comes from a dictionary of the input: it
    carries that prediction's confidence, which is not below the
    threshold, its class contains "wall", and its geometry is the
    box-to-line result for that prediction's coordinates, hence 2 or 4
    points. *)
Theorem returned_walls_come_from_predictions (preds : list PyVal) thr log ws :
  extract_walls preds thr = (log, Ok ws) ->
  Forall (fun w =>
            (exists d, PDict d ∈ preds /\ wall_of d w) /\
            ltb (w_confidence w) thr = false /\
            (length (w_points w) = 2%nat \/ length (w_points w) = 4%nat)) ws.
Proof.
  unfold extract_walls. intros Hrun.
  destruct (walls_loop_returns _ _ _ _ _ _ _ Hrun) as (n' & log' & Hst & _).
  eapply loop_state_walls; [|constructor|exact Hst].
  intros n pred w Hin Hbody.
  destruct (prediction_body_emitted _ _ _ _ Hbody) as (d & -> & Hof & Hlt & _).
  split; [eauto|]. split; [exact Hlt|].
  destruct Hof as (x & y & width & height & _ & _ & _ & _ & _ & _ & Hpts).
  eapply bbox_length, Hpts.
Qed.


(** X4. Predictions are processed in input order: the walls returned for a
    prefix of the input are a prefix of the walls returned for the whole
    input, and an exception raised on a prefix is raised, with the same
    log, on every extension of it. *)
Theorem extraction_respects_prefixes (pre post : list PyVal) thr :
  (forall log ws,
     extract_walls (pre ++ post) thr = (log, Ok ws) ->
     exists log1 ws1 ws2,
       extract_walls pre thr = (log1, Ok ws1) /\ ws = ws1 ++ ws2) /\
  (forall log e,
     extract_walls pre thr = (log, Raise e) ->
     extract_walls (pre ++ post) thr = (log, Raise e)).
Proof.
  unfold extract_walls. split.
  - intros log ws Hrun.
    destruct (walls_loop_returns _ _ _ _ _ _ _ Hrun) as (n' & log' & Hst & _).
    rewrite loop_state_app in Hst.
    destruct (loop_state thr pre [] 1 []) as [[[ws1 n1] log1]|] eqn:Hpre;
      [|discriminate].
    destruct (loop_state_grows _ _ _ _ _ _ _ _ Hst) as (ws2 & _ & -> & _).
    rewrite (loop_state_returns _ _ _ _ _ _ _ _ Hpre). eauto.
  - generalize (@nil wall) 1 (@nil event).
    induction pre as [|p pre IH]; intros walls n log0 log e; simpl.
    + discriminate.
    + destruct (prediction_body thr n p) as [[w|]|e0]; try apply IH.
      destruct (handled e0); [apply IH | trivial].
Qed.

Lemma py_float_raises (v : PyVal) e :
  py_float v = Raise e -> e = TypeError \/ e = ValueError \/ e = OverflowError.
Proof.
  destruct v; simpl; try (intros [= <-]; auto).
  - unfold of_int. destruct (of_Z z); try discriminate. intros [= <-]. auto.
  - destruct (float_of_str s); [discriminate|]. intros [= <-]. auto.
Qed.

Lemma to_int_raises (f : float) e :
  to_int f = Raise e -> e = ValueError \/ e = OverflowError.
Proof. destruct f; simpl; try discriminate; intros [= <-]; auto. Qed.

Lemma bbox_raises (x y width height : float) e :
  bbox_to_wall_line x y width height = Raise e ->
  e = ValueError \/ e = OverflowError.
Proof.
  unfold bbox_to_wall_line. intros H.
  repeat match type of H with
         | context [to_int ?f] =>
             let E := fresh in
             destruct (to_int f) eqn:E;
               [|cbn [mbind result_bind] in H; injection H as <-;
                 eapply to_int_raises, E]
         end.
  cbn [mbind result_bind] in H.
  destruct (geb width _); [discriminate|]. now destruct (geb height _).
Qed.

Lemma prediction_body_raises thr n pred e :
  prediction_body thr n pred = Raise e ->
  (e = AttributeError /\ is_dict pred = false) \/
  (is_dict pred = true /\
   (e = TypeError \/ e = ValueError \/ e = OverflowError)).
Proof.
  unfold prediction_body. intros H.
  destruct pred as [| | | | |?|d];
    try (left; split; [now injection H as <- | reflexivity]).
  right. split; [reflexivity|].
  cbn [py_get mbind result_bind] in H.
  repeat match type of H with
         | context [py_float ?v] =>
             let E := fresh in
             destruct (py_float v) eqn:E;
               [|cbn [mbind result_bind] in H; injection H as <-;
                 eapply py_float_raises, E]
         | _ => progress cbn [mbind result_bind negb] in H
         | (if ?b then _ else _) = _ => destruct b; try discriminate
         end.
  destruct (bbox_to_wall_line _ _ _ _) eqn:E; [discriminate|].
  cbn [mbind result_bind] in H. injection H as <-.
  destruct (bbox_raises _ _ _ _ _ E); auto.
Qed.

Lemma walls_loop_raises thr preds walls n log log' e :
  walls_loop thr preds walls n log = (log', Raise e) ->
  exists pred m,
    pred ∈ preds /\ prediction_body thr m pred = Raise e /\ handled e = false.
Proof.
  revert walls n log. induction preds as [|p preds IH]; intros walls n log; simpl.
  - discriminate.
  - destruct (prediction_body thr n p) as [[w|]|e0] eqn:Hp.
    + intros H. destruct (IH _ _ _ H) as (q & m & Hq & ?). exists q, m.
      split; [now right | assumption].
    + intros H. destruct (IH _ _ _ H) as (q & m & Hq & ?). exists q, m.
      split; [now right | assumption].
    + destruct (handled e0) eqn:He.
      * intros H. destruct (IH _ _ _ H) as (q & m & Hq & ?). exists q, m.
        split; [now right | assumption].
      * intros [= _ <-]. exists p, n. split; [left | auto].
Qed.

(** The orchestrator's two steps, iteration and loop, are this call. *)
Lemma extract_walls_call_logged (predictions : PyVal) thr (s : state) :
  run (items ← lift (py_iter predictions); logged (extract_walls items thr)) s
  = run (logged (extract_walls_call predictions thr)) s.
Proof.
  unfold extract_walls_call. rewrite run_bind. cbn [run lift].
  now destruct (py_iter predictions).
Qed.

(** X5. The exceptions that leave a call of [extract_walls] on an arbitrary
    value: [TypeError] when the value cannot be iterated (a number, a
    boolean, [None]), raised by the [for] statement before anything is
    logged, and only then; otherwise only [OverflowError] (an infinite or
    too large number) and [AttributeError], the latter only when an item is
    not a dictionary. A [TypeError] or [ValueError] of a single prediction
    never leaves the call. *)
Theorem extraction_escaping_exceptions (predictions : PyVal) thr :
  (py_iter predictions = Raise TypeError <->
   extract_walls_call predictions thr = ([], Raise TypeError)) /\
  (forall log e,
     extract_walls_call predictions thr = (log, Raise e) ->
     (e = TypeError /\ log = [] /\ py_iter predictions = Raise TypeError) \/
     (exists preds,
        py_iter predictions = Ok preds /\
        (e = OverflowError \/
         (e = AttributeError /\
          exists pred, pred ∈ preds /\ is_dict pred = false)))).
Proof.
  assert (Hloop : forall preds log e,
            extract_walls preds thr = (log, Raise e) ->
            e = OverflowError \/
            (e = AttributeError /\
             exists pred, pred ∈ preds /\ is_dict pred = false)).
  { unfold extract_walls. intros preds log e Hrun.
    destruct (walls_loop_raises _ _ _ _ _ _ _ Hrun)
      as (pred & m & Hin & Hbody & Hh).
    destruct (prediction_body_raises _ _ _ _ Hbody)
      as [[-> Hd] | [_ [-> | [-> | ->]]]]; try discriminate; eauto. }
  unfold extract_walls_call. split.
  - split.
    + now intros ->.
    + destruct (py_iter predictions) as [preds|e0] eqn:Hiter.
      * intros Hrun. destruct (Hloop _ _ _ Hrun) as [? | [? _]]; discriminate.
      * now intros [= ->].
  - intros log e.
    destruct (py_iter predictions) as [preds|e0] eqn:Hiter.
    + intros Hrun. right. exists preds. split; [reflexivity|]. eauto.
    + intros [= <- <-]. left.
      destruct predictions; try discriminate; now injection Hiter as <-.
Qed.

End ExtractorMore.

(** * Further properties of the box-to-line heuristic *)

Lemma to_int_returns_iff (f : float) :
  (exists z, to_int f = Ok z) <-> is_finite f = true.
Proof.
  split; [|apply to_int_finite].
  intros [z H]. destruct f; simpl in *; try discriminate; reflexivity.
Qed.

(** X6. A returned 2-point geometry is axis-aligned and spans the box:
    either its two points share their y and their x are the truncated
    corner values [int(x - width/2)] and [int(x + width/2)], in this
    order (horizontal wall), or they share their x and their y are
    [int(y - height/2)] and [int(y + height/2)] (vertical wall). A returned
    4-point geometry is a closed path along the sides of the axis-aligned
    rectangle of these corner values: it starts at
    [(int(x - width/2), int(y - height/2))], its third point is the
    opposite corner [(int(x + width/2), int(y + height/2))], the first and
    second point share their y, the second and third their x, the third
    and fourth their y, and the fourth and first their x. *)
Theorem bbox_geometry_is_axis_aligned (x y width height : float) :
  (forall p q,
     bbox_to_wall_line x y width height = Ok [p; q] ->
     (p.2 = q.2 /\
      to_int (sub x (div width two)) = Ok p.1 /\
      to_int (add x (div width two)) = Ok q.1) \/
     (p.1 = q.1 /\
      to_int (sub y (div height two)) = Ok p.2 /\
      to_int (add y (div height two)) = Ok q.2)) /\
  (forall a b c d,
     bbox_to_wall_line x y width height = Ok [a; b; c; d] ->
     (a.2 = b.2 /\ b.1 = c.1 /\ c.2 = d.2 /\ d.1 = a.1) /\
     to_int (sub x (div width two)) = Ok a.1 /\
     to_int (sub y (div height two)) = Ok a.2 /\
     to_int (add x (div width two)) = Ok c.1 /\
     to_int (add y (div height two)) = Ok c.2).
Proof.
  unfold bbox_to_wall_line.
  destruct (to_int (sub x (div width two))) as [x1|]; [|split; discriminate].
  destruct (to_int (sub y (div height two))) as [y1|]; [|split; discriminate].
  destruct (to_int (add x (div width two))) as [x2|]; [|split; discriminate].
  destruct (to_int (add y (div height two))) as [y2|]; [|split; discriminate].
  cbn [mbind result_bind].
  destruct (geb width (mul two height)).
  { split; [intros p q [= <- <-]; left; auto | discriminate]. }
  destruct (geb height (mul two width)).
  { split; [intros p q [= <- <-]; right; auto | discriminate]. }
  split; [discriminate|]. intros a b c d [= <- <- <- <-]. cbn. auto 10.
Qed.

(** X7. The heuristic returns exactly when its four corner values
    [x - width/2], [y - height/2], [x + width/2], [y + height/2] are finite
    floats; otherwise it raises [ValueError] (a NaN corner) or
    [OverflowError] (an infinite corner), and nothing else. *)
Theorem bbox_returns_iff_corners_finite (x y width height : float) :
  ((exists pts, bbox_to_wall_line x y width height = Ok pts) <->
   is_finite (sub x (div width two)) = true /\
   is_finite (sub y (div height two)) = true /\
   is_finite (add x (div width two)) = true /\
   is_finite (add y (div height two)) = true) /\
  (forall e,
     bbox_to_wall_line x y width height = Raise e ->
     e = ValueError \/ e = OverflowError).
Proof.
  split; [|intros e; apply bbox_raises].
  rewrite <- !to_int_returns_iff. unfold bbox_to_wall_line. split.
  - intros [pts H].
    destruct (to_int (sub x (div width two))); [|discriminate].
    destruct (to_int (sub y (div height two))); [|discriminate].
    destruct (to_int (add x (div width two))); [|discriminate].
    destruct (to_int (add y (div height two))); [|discriminate].
    eauto 10.
  - intros ([x1 ->] & [y1 ->] & [x2 ->] & [y2 ->]). cbn [mbind result_bind].
    destruct (geb width (mul two height)); [eauto|].
    destruct (geb height (mul two width)); eauto.
Qed.

(** * Observations of the state that a computation leaves alone *)

Lemma keeps_ret {X A} (f : state -> X) (a : A) : keeps f (mret a).
Proof. intros s. reflexivity. Qed.

Lemma keeps_bind {X A B} (f : state -> X) (m : M A) (k : A -> M B) :
  keeps f m -> (forall a, keeps f (k a)) -> keeps f (m ≫= k).
Proof.
  intros Hm Hk s. rewrite run_bind. specialize (Hm s).
  destruct (run m s) as [[a|e] s1]; simpl in *; [|exact Hm].
  now rewrite Hk.
Qed.

Lemma keeps_try_except {X A} (f : state -> X) (body : M A) handler :
  keeps f body -> (forall e, keeps f (handler e)) ->
  keeps f (try_except body handler).
Proof.
  intros Hb Hh s. unfold try_except. simpl. specialize (Hb s).
  destruct (run body s) as [[a|e] s1]; simpl in *; [exact Hb|].
  now rewrite Hh.
Qed.

Lemma keeps_raise {X A} (f : state -> X) e : keeps f (raise (A := A) e).
Proof. intros s. reflexivity. Qed.

Lemma keeps_lift {X A} (f : state -> X) (r : result A) : keeps f (lift r).
Proof. intros s. reflexivity. Qed.

Lemma keeps_deref {X} (f : state -> X) l : keeps f (deref l).
Proof. intros s. unfold deref. simpl. now destruct (arrays s !! l). Qed.

Lemma keeps_pass {X} (f : state -> X) : keeps f pass.
Proof. intros s. reflexivity. Qed.

Lemma keeps_for_each {X A} (f : state -> X) (l : list A) (body : A -> M ()) :
  (forall x, keeps f (body x)) -> keeps f (for_each l body).
Proof.
  intros Hb. induction l as [|x l IH]; simpl.
  - apply keeps_pass.
  - apply keeps_bind; auto.
Qed.

(** Decompose a computation into its primitive steps; a step that writes
    to the state is left to [step], which must show that the observation
    does not see the write. *)
Ltac keeps_with step :=
  repeat first
    [ apply keeps_ret | apply keeps_raise | apply keeps_lift
    | apply keeps_deref | apply keeps_pass
    | apply keeps_bind | apply keeps_try_except | apply keeps_for_each
    | match goal with
      | |- forall _, _ => intro
      | |- keeps _ (match ?x with _ => _ end) => destruct x
      end
    | solve [step] ].

Ltac keeps_refl := keeps_with ltac:(intros ?; reflexivity).

(** * Further properties of the image helpers *)

(** X8. [read_image] never raises. It returns either a reference to a new
    array object holding the image decoded directly or, when the direct
    decode gives nothing, decoded from the bytes of the file, and then
    logs nothing; or [None] after logging exactly one error record, in
    which case no array was created: the decode error when the bytes were
    read and decoded to nothing, the critical read error with the
    exception when reading or decoding the bytes raised. Result files are
    not touched. *)
Theorem read_image_never_raises (env : environment) (image_path : string)
    (s : state) :
  exists r s',
    run (read_image env image_path) s = (Ok r, s') /\
    json_files s' = json_files s /\ png_files s' = png_files s /\
    match r with
    | Some l =>
        exists img,
          l = fresh_loc s /\ s' = with_array s l img /\ log s' = log s /\
          (cv2_imread env image_path = Some img \/
           cv2_imread env image_path = None /\
           exists img_bytes,
             read_bytes env image_path = Ok img_bytes /\
             cv2_imdecode env img_bytes = Ok (Some img))
    | None =>
        arrays s' = arrays s /\ cv2_imread env image_path = None /\
        ((exists img_bytes,
            read_bytes env image_path = Ok img_bytes /\
            cv2_imdecode env img_bytes = Ok None /\
            log s' = log s ++ [ErrorDecode image_path]) \/
         (exists e,
            (read_bytes env image_path = Raise e \/
             exists img_bytes,
               read_bytes env image_path = Ok img_bytes /\
               cv2_imdecode env img_bytes = Raise e) /\
            log s' = log s ++ [ErrorReadCritical image_path e]))
    end.
Proof.
  unfold read_image, try_except. cbn [run].
  destruct (cv2_imread env image_path) as [img|] eqn:Hread.
  { eexists _, _. split; [reflexivity|]. cbn. repeat split. eauto 10. }
  rewrite run_bind. cbn [run lift].
  destruct (read_bytes env image_path) as [img_bytes|e] eqn:Hbytes.
  2:{ eexists _, _. split; [reflexivity|]. cbn. repeat split. eauto 10. }
  rewrite run_bind. cbn [run lift].
  destruct (cv2_imdecode env img_bytes) as [[img|]|e] eqn:Hdec.
  - eexists _, _. split; [reflexivity|]. cbn. repeat split. eauto 10.
  - eexists _, _. split; [reflexivity|]. cbn. repeat split. eauto 10.
  - eexists _, _. split; [reflexivity|]. cbn. repeat split. eauto 10.
Qed.

Lemma with_array_keeps_old (s : state) (a : ndarray) l' a' :
  arrays s !! l' = Some a' ->
  arrays (with_array s (fresh_loc s) a) !! l' = Some a'.
Proof.
  intros H. cbn. rewrite lookup_insert_ne; [exact H|].
  intros E. pose proof (fresh_loc_unused s) as Hf. rewrite E in Hf. congruence.
Qed.

(** X9. On the arrays outside the three raster layouts: an array of fewer
    than two dimensions makes [ensure_color_image] raise [IndexError], and
    an array of three or more dimensions whose third is not 4 is returned
    as a new object with the same shape and contents, whatever its number
    of channels. In every case the arrays that existed before the call,
    the result files and the log are left as they were. *)
Theorem ensure_color_image_other_arrays (s : state) (l : loc) (a : ndarray) :
  arrays s !! l = Some a ->
  ((length (shape a) < 2)%nat ->
   run (ensure_color_image (Some l)) s = (Raise IndexError, s)) /\
  (forall c,
     shape a !! 2%nat = Some c -> c <> 4%nat ->
     run (ensure_color_image (Some l)) s
     = (Ok (fresh_loc s), with_array s (fresh_loc s) a)) /\
  (forall r s',
     run (ensure_color_image (Some l)) s = (r, s') ->
     (forall l' a', arrays s !! l' = Some a' -> arrays s' !! l' = Some a') /\
     json_files s' = json_files s /\ png_files s' = png_files s /\
     log s' = log s).
Proof.
  intros Hl. unfold ensure_color_image. rewrite run_bind.
  unfold deref at 1 2 3. cbn [run]. rewrite Hl. split; [|split].
  - intros Hlen. destruct (decide (length (shape a) = 2%nat)); [lia|].
    rewrite (lookup_ge_None_2 (shape a) 2) by lia. reflexivity.
  - intros c Hc Hne.
    destruct (decide (length (shape a) = 2%nat)) as [E|_].
    { apply lookup_lt_Some in Hc. lia. }
    rewrite Hc. destruct c as [|[|[|[|[|c]]]]]; try reflexivity. congruence.
  - intros r s'.
    assert (Halloc : forall b r s',
              run (alloc b) s = (r, s') ->
              (forall l' a', arrays s !! l' = Some a' -> arrays s' !! l' = Some a')
              /\ json_files s' = json_files s /\ png_files s' = png_files s
              /\ log s' = log s).
    { intros b r0 s0 [= _ <-]. repeat split.
      intros l' a'. apply (with_array_keeps_old s b). }
    assert (Hconv : forall c : result ndarray, forall r s',
              run (lift c ≫= alloc) s = (r, s') ->
              (forall l' a', arrays s !! l' = Some a' -> arrays s' !! l' = Some a')
              /\ json_files s' = json_files s /\ png_files s' = png_files s
              /\ log s' = log s).
    { intros [b|e] r0 s0; rewrite run_bind; cbn [run lift].
      - apply Halloc.
      - intros [= _ <-]. auto. }
    destruct (decide (length (shape a) = 2%nat)); [apply Hconv|].
    destruct (shape a !! 2%nat) as [[|[|[|[|[|c]]]]]|];
      try apply Halloc; try apply Hconv.
    intros [= _ <-]. auto.
Qed.

Section VisualizerFacts.
Context (env : environment).

Lemma drawing_keeps {X} (f : state -> X) (vis : loc) (walls : list wall) :
  (forall a s, f (run (store vis a) s).2 = f s) ->
  keeps f
    (for_each walls (fun wall =>
       for_each (segments (w_points wall)) (fun '(start_point, end_point) =>
         canvas ← deref vis;
         drawn ← lift (cv2_line env canvas start_point end_point);
         store vis drawn))).
Proof. intros Hstore. keeps_with ltac:(intros ?; apply Hstore). Qed.

Lemma segments_zip (points : list point) :
  segments points = zip points (drop 1 points).
Proof.
  induction points as [|p [|q rest] IH]; try reflexivity.
  change (segments (p :: q :: rest)) with ((p, q) :: segments (q :: rest)).
  now rewrite IH.
Qed.

Lemma with_array_twice (s : state) (l : loc) (a b : ndarray) :
  with_array (with_array s l a) l b = with_array s l b.
Proof. unfold with_array. cbn. now rewrite insert_insert_eq. Qed.

Lemma with_array_same (s : state) (l : loc) (a : ndarray) :
  arrays s !! l = Some a -> with_array s l a = s.
Proof.
  intros H. unfold with_array. rewrite (insert_id _ _ _ H). now destruct s.
Qed.

Lemma run_deref (s : state) (l : loc) (a : ndarray) :
  arrays s !! l = Some a -> run (deref l) s = (Ok a, s).
Proof. intros H. unfold deref. cbn. now rewrite H. Qed.

Lemma run_for_each_app {A} (l1 l2 : list A) (body : A -> M ()) (s : state) :
  run (for_each (l1 ++ l2) body) s
  = run (for_each l1 body ;; for_each l2 body) s.
Proof.
  revert s. induction l1 as [|x l1 IH]; intros s.
  - cbn [app for_each]. rewrite run_bind. reflexivity.
  - cbn [app for_each]. rewrite !run_bind.
    destruct (run (body x) s) as [[[]|e] s1]; [|reflexivity].
    now rewrite IH, run_bind.
Qed.

Lemma run_for_each_flat_map {A B} (f : A -> list B) (l : list A)
    (body : B -> M ()) (s : state) :
  run (for_each l (fun x => for_each (f x) body)) s
  = run (for_each (flat_map f l) body) s.
Proof.
  revert s. induction l as [|x l IH]; intros s; [reflexivity|].
  cbn [flat_map for_each]. rewrite run_for_each_app, !run_bind.
  destruct (run (for_each (f x) body) s) as [[[]|e] s1]; [|reflexivity].
  apply IH.
Qed.

(** Drawing the strokes one by one on the array behind [vis]. *)
Lemma run_strokes (vis : loc) (strokes : list (point * point)) :
  forall (s : state) (canvas : ndarray),
    arrays s !! vis = Some canvas ->
    match draw_strokes env canvas strokes with
    | Ok drawn =>
        run (for_each strokes (fun '(start_point, end_point) =>
               canvas ← deref vis;
               drawn ← lift (cv2_line env canvas start_point end_point);
               store vis drawn)) s
        = (Ok (), with_array s vis drawn)
    | Raise e =>
        (run (for_each strokes (fun '(start_point, end_point) =>
                canvas ← deref vis;
                drawn ← lift (cv2_line env canvas start_point end_point);
                store vis drawn)) s).1
        = Raise e
    end.
Proof.
  induction strokes as [|[p q] rest IH]; intros s canvas Hcanvas.
  - cbn. now rewrite with_array_same.
  - cbn [draw_strokes for_each].
    rewrite run_bind, run_bind, (run_deref _ _ _ Hcanvas), run_bind.
    cbn [run lift].
    destruct (cv2_line env canvas p q) as [drawn|e]; [|reflexivity].
    cbn [mbind result_bind run store].
    specialize (IH (with_array s vis drawn) drawn (lookup_insert_eq _ _ _)).
    fold (with_array s vis drawn).
    destruct (draw_strokes env drawn rest) as [final|e].
    + now rewrite IH, with_array_twice.
    + exact IH.
Qed.

(** X10. [visualize_walls] draws, on a copy of the input, one stroke per
    pair of consecutive points of each wall, wall after wall, each stroke
    on the result of the one before, and none from the last point of a
    wall back to its first: the returned image is the input after exactly
    these calls of [cv2.line], and the first stroke that fails makes the
    call raise. A geometry returned by the box-to-line heuristic is
    therefore drawn with 1 stroke (a segment) or 3 strokes (three of the
    four sides of a rectangle). *)
Theorem strokes_per_wall (s : state) (l : loc) (a : ndarray)
    (walls : list wall) :
  arrays s !! l = Some a ->
  (forall drawn,
     draw_strokes env a (strokes_of walls) = Ok drawn ->
     run (visualize_walls env (Some l) walls) s
     = (Ok (fresh_loc s), with_array s (fresh_loc s) drawn)) /\
  (forall e,
     draw_strokes env a (strokes_of walls) = Raise e ->
     (run (visualize_walls env (Some l) walls) s).1 = Raise e) /\
  (forall w x y width height,
     bbox_to_wall_line x y width height = Ok (w_points w) ->
     (exists p q, w_points w = [p; q] /\ strokes_of [w] = [(p, q)]) \/
     (exists p q r t,
        w_points w = [p; q; r; t] /\
        strokes_of [w] = [(p, q); (q, r); (r, t)])).
Proof.
  intros Hl. split; [|split].
  - intros drawn Hdraw.
    pose proof (run_strokes (fresh_loc s) (strokes_of walls)
                  (with_array s (fresh_loc s) a) a (lookup_insert_eq _ _ _))
      as Hrun.
    rewrite Hdraw in Hrun.
    unfold visualize_walls. rewrite run_bind, (run_deref _ _ _ Hl), run_bind.
    cbn [run alloc]. fold (fresh_loc s). fold (with_array s (fresh_loc s) a).
    rewrite run_bind, run_for_each_flat_map.
    rewrite (flat_map_ext _ (fun w => zip (w_points w) (drop 1 (w_points w))))
      by (intros w; apply segments_zip).
    fold (strokes_of walls). rewrite Hrun. cbn [run mret M_ret].
    now rewrite with_array_twice.
  - intros e Hdraw.
    pose proof (run_strokes (fresh_loc s) (strokes_of walls)
                  (with_array s (fresh_loc s) a) a (lookup_insert_eq _ _ _))
      as Hrun.
    rewrite Hdraw in Hrun.
    unfold visualize_walls. rewrite run_bind, (run_deref _ _ _ Hl), run_bind.
    cbn [run alloc]. fold (fresh_loc s). fold (with_array s (fresh_loc s) a).
    rewrite run_bind, run_for_each_flat_map.
    rewrite (flat_map_ext _ (fun w => zip (w_points w) (drop 1 (w_points w))))
      by (intros w; apply segments_zip).
    fold (strokes_of walls).
    destruct (run (for_each (strokes_of walls) _) _) as [[[]|e'] s'];
      cbn in Hrun |- *; congruence.
  - intros w x y width height Hbox. unfold strokes_of. cbn [flat_map].
    rewrite app_nil_r.
    destruct (bbox_length _ _ _ _ _ Hbox) as [Hlen | Hlen];
      destruct (w_points w) as [|p [|q [|r [|t [|]]]]]; try discriminate;
      cbn; eauto 10.
Qed.

(** X11. [visualize_walls] draws on a new array object: the reference it
    returns is fresh, and every array that existed before the call, the
    input raster among them, is unchanged afterwards, also when drawing
    raises. Result files and the log are not touched. Without walls the
    result is a plain copy of the input; an absent raster raises
    [ValueError]. *)
Theorem visualize_walls_draws_on_a_copy (s : state) (walls : list wall) :
  run (visualize_walls env None walls) s = (Raise ValueError, s) /\
  (forall l a,
     arrays s !! l = Some a ->
     run (visualize_walls env (Some l) []) s
     = (Ok (fresh_loc s), with_array s (fresh_loc s) a)) /\
  (forall l a r s',
     arrays s !! l = Some a ->
     run (visualize_walls env (Some l) walls) s = (r, s') ->
     (forall vis, r = Ok vis -> vis = fresh_loc s /\ arrays s !! vis = None) /\
     (forall l' a', arrays s !! l' = Some a' -> arrays s' !! l' = Some a') /\
     json_files s' = json_files s /\ png_files s' = png_files s /\
     log s' = log s).
Proof.
  split; [reflexivity|]. split.
  - intros l a Hl. unfold visualize_walls. rewrite run_bind.
    unfold deref. cbn [run]. rewrite Hl. reflexivity.
  - intros l a r s' Hl. unfold visualize_walls. rewrite run_bind.
    unfold deref at 1. cbn [run]. rewrite Hl.
    rewrite run_bind. cbn [run alloc]. fold (fresh_loc s).
    fold (with_array s (fresh_loc s) a). rewrite run_bind.
    set (loop := for_each walls _).
    assert (Hold : forall l' a',
              arrays s !! l' = Some a' ->
              arrays (run loop (with_array s (fresh_loc s) a)).2 !! l' = Some a').
    { intros l' a' H.
      rewrite (drawing_keeps (fun st => arrays st !! l') (fresh_loc s) walls).
      - now apply with_array_keeps_old.
      - intros b st. cbn. apply lookup_insert_ne.
        intros E. pose proof (fresh_loc_unused s) as Hf. rewrite E in Hf.
        congruence. }
    pose proof (drawing_keeps json_files (fresh_loc s) walls
                  (fun _ _ => eq_refl) (with_array s (fresh_loc s) a)) as Hj.
    pose proof (drawing_keeps png_files (fresh_loc s) walls
                  (fun _ _ => eq_refl) (with_array s (fresh_loc s) a)) as Hp.
    pose proof (drawing_keeps log (fresh_loc s) walls
                  (fun _ _ => eq_refl) (with_array s (fresh_loc s) a)) as Hg.
    fold loop in Hj, Hp, Hg.
    destruct (run loop (with_array s (fresh_loc s) a)) as [[[]|e] s2];
      cbn in *; intros [= <- <-];
      (split;
       [intros vis Hvis;
        first [discriminate
              |injection Hvis as <-;
               split; [reflexivity | apply fresh_loc_unused]]
       |auto]).
Qed.

End VisualizerFacts.

(** * Further properties of file discovery and of paths *)

Lemma append_assoc_str (a b c : string) : (a +:+ b) +:+ c = a +:+ (b +:+ c).
Proof.
  induction a as [|x a IH]; [reflexivity|].
  change (String x ((a +:+ b) +:+ c) = String x (a +:+ (b +:+ c))).
  now rewrite IH.
Qed.

Lemma list_ascii_of_append (a b : string) :
  list_ascii_of_string (a +:+ b)
  = list_ascii_of_string a ++ list_ascii_of_string b.
Proof.
  induction a as [|x a IH]; [reflexivity|].
  change (x :: list_ascii_of_string (a +:+ b)
          = x :: (list_ascii_of_string a ++ list_ascii_of_string b)).
  now rewrite IH.
Qed.

Lemma endswith_split (s ext : string) :
  str_endswith s ext = true -> exists p, s = p +:+ ext.
Proof.
  induction s as [|c t IH]; simpl.
  - destruct (decide ("" = ext)) as [<-|]; [|discriminate]. now exists "".
  - destruct (decide (String c t = ext)) as [<-|]; [now exists ""|].
    intros H. destruct (IH H) as [p ->]. now exists (String c p).
Qed.

Lemma prefix_slash (t : string) : String.prefix "/" (String "/" t) = true.
Proof.
  change (String.prefix "/" (String "/" t))
    with (if ascii_dec "/" "/" then String.prefix "" t else false).
  destruct (ascii_dec "/" "/"); [destruct t; reflexivity | congruence].
Qed.

Lemma no_slash_head (c : ascii) (t : string) :
  str_contains "/" (String c t) = false ->
  Ascii.eqb c "/" = false /\ str_contains "/" t = false.
Proof.
  cbn [str_contains]. intros H. apply orb_false_iff in H as [Hc Ht].
  split; [|exact Ht].
  destruct (Ascii.eqb_spec c "/") as [->|]; [|reflexivity].
  rewrite prefix_slash in Hc. discriminate.
Qed.

Lemma contains_slash_app (a b : string) :
  str_contains "/" (a +:+ String "/" b) = true.
Proof.
  induction a as [|c a IH].
  - change ("" +:+ String "/" b) with (String "/" b).
    cbn [str_contains]. now rewrite prefix_slash.
  - change (String c a +:+ String "/" b) with (String c (a +:+ String "/" b)).
    cbn [str_contains]. rewrite IH. apply orb_true_r.
Qed.

Lemma basename_no_slash (f : string) :
  str_contains "/" f = false -> basename f = f.
Proof.
  destruct f as [|c t]; [reflexivity|].
  intros H. apply no_slash_head in H as [Hc Ht].
  cbn [basename]. now rewrite Ht, Hc.
Qed.

Lemma basename_app (a f : string) :
  str_contains "/" f = false -> basename (a +:+ String "/" f) = f.
Proof.
  intros Hf. induction a as [|c a IH].
  - change ("" +:+ String "/" f) with (String "/" f).
    cbn [basename]. now rewrite Hf.
  - change (String c a +:+ String "/" f) with (String c (a +:+ String "/" f)).
    cbn [basename]. now rewrite contains_slash_app.
Qed.

Lemma basename_join (directory filename : string) :
  str_contains "/" filename = false ->
  basename (os_path_join directory filename) = filename.
Proof.
  intros Hf. unfold os_path_join.
  assert (Hp : String.prefix "/" filename = false).
  { destruct filename as [|c t]; [reflexivity|].
    cbn [str_contains] in Hf. now apply orb_false_iff in Hf as [Hc _]. }
  rewrite Hp.
  destruct (decide (directory = "")); [now apply basename_no_slash|].
  destruct (str_endswith directory "/") eqn:Hend.
  - destruct (endswith_split _ _ Hend) as [p ->].
    rewrite append_assoc_str. now apply basename_app.
  - now apply basename_app.
Qed.

(** X12. [os.path.basename] undoes [os.path.join] on a file name: for
    every directory text and every name without a separator, the last
    component of the joined path is that name. This is what makes the
    [source] of a result the name listed in the input directory. *)
Theorem basename_of_joined_path (directory filename : string) :
  str_contains "/" filename = false ->
  basename (os_path_join directory filename) = filename.
Proof. exact (basename_join directory filename). Qed.

Section FileDiscoveryMore.
Context {rt : PyBuiltins}.

Lemma image_files_loop_filter directory (extensions names : list string) :
  image_files_loop directory extensions names
  = os_path_join directory
      <$> filter (fun n => has_image_extension extensions n) names.
Proof.
  induction names as [|n names IH]; [reflexivity|]. simpl.
  destruct (has_image_extension extensions n) eqn:Hn.
  - rewrite filter_cons_True by (rewrite Hn; exact I). simpl. now rewrite IH.
  - rewrite filter_cons_False by (rewrite Hn; intros []). exact IH.
Qed.

(** X13. The outcomes of [get_image_files]: a path that does not exist
    gives the empty list and one warning, without an exception; a path
    that exists and is not a directory raises [ValueError]; for a
    directory the result is, in listing order, the joined path of every
    listed name whose lowercased form ends with an accepted extension, and
    nothing else, so it is never longer than the listing. *)
Theorem get_image_files_outcomes (fs : filesystem) (directory : string)
    (extensions : option (list string)) :
  (fs_exists fs directory = false ->
   get_image_files fs directory extensions
   = ([WarnNoDirectory directory], Ok [])) /\
  (fs_exists fs directory = true -> fs_isdir fs directory = false ->
   get_image_files fs directory extensions
   = ([ErrorNotDirectory directory], Raise ValueError)) /\
  (forall names,
     fs_exists fs directory = true -> fs_isdir fs directory = true ->
     fs_listdir fs directory = Ok names ->
     exists image_files,
       get_image_files fs directory extensions
       = ([InfoImagesFound (length image_files) directory], Ok image_files) /\
       image_files
       = os_path_join directory
           <$> filter (fun n => has_image_extension
                                  (default default_extensions extensions) n)
                 names /\
       (length image_files <= length names)%nat).
Proof.
  unfold get_image_files. split; [|split].
  - now intros ->.
  - now intros -> ->.
  - intros names -> -> ->. simpl. eexists. split; [reflexivity|].
    rewrite image_files_loop_filter. split; [reflexivity|].
    rewrite length_fmap. apply length_filter.
Qed.

End FileDiscoveryMore.

Lemma prefix_dot (t : string) : String.prefix "." (String "." t) = true.
Proof.
  change (String.prefix "." (String "." t))
    with (if ascii_dec "." "." then String.prefix "" t else false).
  destruct (ascii_dec "." "."); [destruct t; reflexivity | congruence].
Qed.

Lemma no_dot_chars (s : string) :
  str_contains "." s = false ->
  Forall (fun c => Ascii.eqb c "." = false) (list_ascii_of_string s).
Proof.
  induction s as [|c t IH]; [constructor|].
  cbn [str_contains]. intros H. apply orb_false_iff in H as [Hc Ht].
  cbn [list_ascii_of_string]. constructor; [|now apply IH].
  destruct (Ascii.eqb_spec c ".") as [->|]; [|reflexivity].
  rewrite prefix_dot in Hc. discriminate.
Qed.

Lemma forallb_rev_false {A} (f : A -> bool) (l : list A) :
  forallb f l = false -> forallb f (rev l) = false.
Proof.
  intros H. apply not_true_iff_false. intros Hr.
  apply not_true_iff_false in H. apply H.
  apply forallb_forall. intros x Hx.
  rewrite forallb_forall in Hr. apply Hr. now apply in_rev in Hx.
Qed.

Lemma length_app_str (a b : string) :
  String.length (a +:+ b) = (String.length a + String.length b)%nat.
Proof.
  induction a as [|x a IH]; [reflexivity|].
  change (S (String.length (a +:+ b))
          = S (String.length a + String.length b)%nat).
  now rewrite IH.
Qed.

Lemma substring_app (a b : string) :
  substring 0 (String.length a) (a +:+ b) = a.
Proof.
  induction a as [|x a IH]; [now destruct b|].
  change (String x (substring 0 (String.length a) (a +:+ b)) = String x a).
  now rewrite IH.
Qed.

Lemma splitext_root_no_slash (name : string) :
  str_contains "/" name = false -> splitext_root name = splitext_component name.
Proof.
  intros H. unfold splitext_root. rewrite (basename_no_slash _ H).
  rewrite Nat.sub_diag. now destruct name.
Qed.

Lemma splitext_root_path (directory name : string) :
  str_contains "/" name = false ->
  splitext_root (directory +:+ "/" +:+ name)
  = directory +:+ "/" +:+ splitext_component name.
Proof.
  intros H. unfold splitext_root.
  change ("/" +:+ name) with (String "/" name).
  rewrite (basename_app _ _ H).
  change (String "/" name) with ("/" +:+ name).
  rewrite <- (append_assoc_str directory "/" name), length_app_str.
  replace (String.length (directory +:+ "/") + String.length name
           - String.length name)%nat
    with (String.length (directory +:+ "/")) by lia.
  rewrite substring_app. apply append_assoc_str.
Qed.

Lemma before_last_dot_found (before_last_dot := fix before_last_dot
    (rev_name : list ascii) :=
      match rev_name with
      | [] => None
      | c :: before =>
          if Ascii.eqb c "." then Some before else before_last_dot before
      end) (r m : list ascii) :
  Forall (fun c => Ascii.eqb c "." = false) r ->
  before_last_dot (r ++ "."%char :: m) = Some m.
Proof.
  induction r as [|c r IH]; intros Hr; [reflexivity|].
  inversion Hr as [|? ? Hc Hr']; subst. simpl. rewrite Hc. now apply IH.
Qed.

Lemma splitext_component_name (stem ext : string) :
  str_contains "." ext = false ->
  splitext_component (stem +:+ "." +:+ ext)
  = if forallb (fun c => Ascii.eqb c ".") (list_ascii_of_string stem)
    then stem +:+ "." +:+ ext else stem.
Proof.
  intros Hext. unfold splitext_component.
  rewrite list_ascii_of_append.
  change (list_ascii_of_string ("." +:+ ext))
    with ("."%char :: list_ascii_of_string ext).
  rewrite rev_app_distr. simpl rev at 1. rewrite <- app_assoc. simpl app at 2.
  rewrite before_last_dot_found by (apply Forall_rev, no_dot_chars, Hext).
  destruct (forallb _ (list_ascii_of_string stem)) eqn:Hstem.
  - replace (forallb (fun c => Ascii.eqb c ".") (rev (list_ascii_of_string stem)))
      with true; [reflexivity|].
    symmetry. apply forallb_forall. intros x Hx. apply in_rev in Hx.
    rewrite forallb_forall in Hstem. now apply Hstem.
  - rewrite forallb_rev_false by exact Hstem.
    now rewrite rev_involutive, string_of_list_ascii_of_string.
Qed.

(** X14. The stem used for the two artifacts of an image. For a file name
    [stem.ext] without separator whose extension contains no dot:
    when the stem is not made of dots only, [os.path.splitext] gives back
    [stem], also after the name went through [os.path.join] and
    [os.path.basename], and a directory in front of the name is kept as it
    is; when the stem is empty or made of dots only (a name such as
    [.png]), the name has no extension and is its own stem. *)
Theorem stem_of_image_name (directory stem ext : string) :
  str_contains "." ext = false ->
  str_contains "/" (stem +:+ "." +:+ ext) = false ->
  (forallb (fun c => Ascii.eqb c ".") (list_ascii_of_string stem) = false ->
   splitext_root (stem +:+ "." +:+ ext) = stem /\
   splitext_root (basename (os_path_join directory (stem +:+ "." +:+ ext)))
   = stem /\
   splitext_root (directory +:+ "/" +:+ (stem +:+ "." +:+ ext))
   = directory +:+ "/" +:+ stem) /\
  (forallb (fun c => Ascii.eqb c ".") (list_ascii_of_string stem) = true ->
   splitext_root (stem +:+ "." +:+ ext) = stem +:+ "." +:+ ext /\
   splitext_root (basename (os_path_join directory (stem +:+ "." +:+ ext)))
   = stem +:+ "." +:+ ext /\
   splitext_root (directory +:+ "/" +:+ (stem +:+ "." +:+ ext))
   = directory +:+ "/" +:+ (stem +:+ "." +:+ ext)).
Proof.
  intros Hext Hslash.
  split; intros Hstem;
    rewrite basename_join, splitext_root_path, splitext_root_no_slash,
      splitext_component_name, Hstem by assumption; auto.
Qed.

(** * Further properties of the result schema *)

Lemma validate_list_ints (l : list PyVal) (dims : list Z) :
  Schemas.validate_list Schemas.validate_int l = Ok dims <-> l = PInt <$> dims.
Proof.
  revert dims. induction l as [|v l IH]; intros dims; simpl.
  - split; [intros [= <-]; reflexivity|]. destruct dims; [reflexivity|discriminate].
  - split.
    + destruct v; simpl; try discriminate.
      destruct (Schemas.validate_list Schemas.validate_int l) as [r|] eqn:Hl;
        simpl; [|discriminate].
      intros [= <-]. simpl. f_equal. now apply IH.
    + destruct dims as [|z dims]; [discriminate|]. simpl. intros [= -> Hl].
      simpl. apply IH in Hl. rewrite Hl. reflexivity.
Qed.

Lemma FloorPlanResult_new_accepts (meta : gmap string PyVal)
    (walls : list wall) (source : string) (shape : list Z) :
  meta !! "source" = Some (PStr source) ->
  meta !! "shape" = Some (PList (PInt <$> shape)) ->
  Schemas.FloorPlanResult_new meta walls
  = Ok {| Schemas.meta :=
            {| Schemas.source := source; Schemas.shape := shape |};
          Schemas.walls := Schemas.Wall_validate <$> walls |}.
Proof.
  unfold Schemas.FloorPlanResult_new, Schemas.Metadata_validate,
    Schemas.required.
  intros -> ->. simpl.
  now rewrite (proj2 (validate_list_ints _ shape) eq_refl).
Qed.

(** X15. [FloorPlanResult(meta=..., walls=...)] is built whenever [meta]
    has a text under "source" and a list of integers under "shape": the
    result holds these two values and one wall per extracted wall, and
    every other entry of [meta] is dropped. When "source" or "shape" is
    missing the construction fails with a validation error. Dumping a
    metadata record and validating the dump gives the record back. *)
Theorem result_validation (meta : gmap string PyVal) (walls : list wall) :
  (forall source shape,
     meta !! "source" = Some (PStr source) ->
     meta !! "shape" = Some (PList (PInt <$> shape)) ->
     Schemas.FloorPlanResult_new meta walls
     = Ok {| Schemas.meta :=
               {| Schemas.source := source; Schemas.shape := shape |};
             Schemas.walls := Schemas.Wall_validate <$> walls |} /\
     forall other v,
       other <> "source" -> other <> "shape" ->
       Schemas.FloorPlanResult_new (<[other := v]> meta) walls
       = Schemas.FloorPlanResult_new meta walls) /\
  (meta !! "source" = None \/ meta !! "shape" = None ->
   Schemas.FloorPlanResult_new meta walls = Raise ValidationError) /\
  (forall m : Schemas.Metadata,
     Schemas.Metadata_validate (Schemas.Metadata_dump m) = Ok m).
Proof.
  split; [|split].
  - intros source shape Hsource Hshape.
    split; [now apply FloorPlanResult_new_accepts|].
    intros other v Hs Hh.
    rewrite !(FloorPlanResult_new_accepts _ walls source shape);
      rewrite ?lookup_insert_ne by congruence; auto.
  - unfold Schemas.FloorPlanResult_new, Schemas.Metadata_validate,
      Schemas.required.
    intros [-> | Hshape]; [reflexivity|].
    destruct (meta !! "source") as [[| | | |source| |]|]; simpl;
      try reflexivity.
    now rewrite Hshape.
  - intros m.
    unfold Schemas.Metadata_validate, Schemas.Metadata_dump, Schemas.required.
    rewrite lookup_insert_eq. simpl.
    rewrite lookup_insert_ne by discriminate. rewrite lookup_singleton_eq. simpl.
    rewrite (proj2 (validate_list_ints _ (Schemas.shape m)) eq_refl).
    simpl. now destruct m.
Qed.

Lemma wall_dump_json (w : wall) :
  PDict (Schemas.Wall_dump (Schemas.Wall_validate w)) = wall_json w.
Proof.
  unfold Schemas.Wall_dump, Schemas.Wall_validate, wall_json. simpl.
  now rewrite <- list_fmap_compose.
Qed.

(** X16. The dumped result has exactly the entries "meta" and "walls", and
    "walls" lists the extracted walls in their order, each as an object
    with its id, its points as [x, y] pairs in order and its confidence
    (never null). *)
Theorem dumped_walls (meta : gmap string PyVal) (walls : list wall)
    (r : Schemas.FloorPlanResult) :
  Schemas.FloorPlanResult_new meta walls = Ok r ->
  Schemas.model_dump r !! "walls" = Some (PList (wall_json <$> walls)) /\
  dom (Schemas.model_dump r) = {[ "meta"; "walls" ]}.
Proof.
  unfold Schemas.FloorPlanResult_new.
  destruct (Schemas.Metadata_validate meta) as [m|]; simpl; [|discriminate].
  intros [= <-]. unfold Schemas.model_dump. simpl. split.
  - rewrite lookup_insert_ne by discriminate. rewrite lookup_singleton_eq.
    do 2 f_equal. rewrite <- list_fmap_compose. apply list_fmap_ext.
    intros i w _. apply wall_dump_json.
  - now rewrite dom_insert_L, dom_singleton_L.
Qed.

(** * Properties of the inference client *)

Lemma log_tail1 (l : list event) a : exists earlier, l ++ [a] = l ++ earlier ++ [a].
Proof. now exists []. Qed.

Lemma log_tail2 (l : list event) a b :
  exists earlier, (l ++ [a]) ++ [b] = l ++ earlier ++ [b].
Proof. exists [a]. now rewrite <- app_assoc. Qed.

Lemma log_tail3 (l : list event) a b c :
  exists earlier, ((l ++ [a]) ++ [b]) ++ [c] = l ++ earlier ++ [c].
Proof. exists [a; b]. now rewrite <- !app_assoc. Qed.

Lemma log_tail2' (l : list event) a b :
  exists earlier, (l ++ [a]) ++ [b] = l ++ earlier ++ [a; b].
Proof. exists []. now rewrite <- app_assoc. Qed.

Lemma log_tail3' (l : list event) a b c :
  exists earlier, ((l ++ [a]) ++ [b]) ++ [c] = l ++ earlier ++ [b; c].
Proof. exists [a]. now rewrite <- !app_assoc. Qed.

Ltac log_tail :=
  first [apply log_tail1 | apply log_tail2 | apply log_tail3
        |apply log_tail2' | apply log_tail3'].

Ltac client_failure :=
  solve [intros ?; simplify_eq; cbn; split; [log_tail | auto]].

Section ClientFacts.
Context (env : environment) (self : RoboflowClient) (image_path : string).

(** X17. When [infer_image] returns a body, the request to the model's
    address was answered with a status outside 400..599, the answer parsed
    as JSON to that body, and the body has a "predictions" entry. Nothing
    but the log changed, and the log gained at most a warning about a
    status other than 200. *)
Theorem infer_image_success (s s' : state) (body : PyVal) :
  run (infer_image env self image_path) s = (Ok body, s') ->
  exists response,
    requests_post env (request_url self) image_path = Ok response /\
    (status_code response < 400 \/ 600 <= status_code response) /\
    json response = Ok body /\
    has_predictions body = Ok true /\
    arrays s' = arrays s /\ json_files s' = json_files s /\
    png_files s' = png_files s /\
    log s' = log s ++ (if decide (status_code response = 200) then []
                       else [WarnStatus (status_code response)]).
Proof.
  unfold infer_image, request_url, try_except, pass. cbn.
  destruct (requests_post env _ image_path) as [response|e0]; cbn;
    [|now destruct e0].
  destruct (decide (status_code response = 200)) as [E|E]; cbn;
    (destruct ((400 <=? status_code response) && (status_code response <? 600))
       eqn:Hst; cbn; [discriminate|]);
    (destruct (json response) as [b|e1] eqn:Hjson; cbn; [|now destruct e1]);
    (destruct (has_predictions b) as [[|]|e2] eqn:Hp; cbn;
     [|discriminate|now destruct e2]);
    intros [= <- <-]; exists response; cbn;
    (split; [reflexivity|]);
    (split; [apply andb_false_iff in Hst; lia|]);
    (split; [exact Hjson|]);
    (split; [exact Hp|]);
    repeat (split; [reflexivity|]);
    first [rewrite decide_True by assumption; now rewrite app_nil_r
          |now rewrite decide_False by assumption].
Qed.

(** X18. Failures of [infer_image] are surfaced, never swallowed: whenever
    it raises, the records of the matching handler are the last entries of
    the log (for an exception of the [requests] library the network error
    and, when it carries a response, the details of the answer), and arrays
    and result files are untouched. A failing request raises its own
    exception after these records alone; an answer with a status in
    400..599 raises [HTTPError] after the status warning, the network error
    and the details of the answer; an answer that parses to an object
    without a "predictions" entry raises [ValueError]. *)
Theorem infer_image_failures (s : state) :
  (forall e s',
     run (infer_image env self image_path) s = (Raise e, s') ->
     (exists earlier,
        log s' = log s ++ earlier ++ client_error_records image_path e) /\
     arrays s' = arrays s /\ json_files s' = json_files s /\
     png_files s' = png_files s) /\
  (forall e,
     requests_post env (request_url self) image_path = Raise e ->
     (run (infer_image env self image_path) s).1 = Raise e /\
     log (run (infer_image env self image_path) s).2
     = log s ++ client_error_records image_path e) /\
  (forall response,
     requests_post env (request_url self) image_path = Ok response ->
     400 <= status_code response < 600 ->
     (run (infer_image env self image_path) s).1 = Raise HTTPError /\
     log (run (infer_image env self image_path) s).2
     = log s ++ [WarnStatus (status_code response); ErrorNetwork;
                 ErrorResponseDetails]) /\
  (forall response d,
     requests_post env (request_url self) image_path = Ok response ->
     (status_code response < 400 \/ 600 <= status_code response) ->
     json response = Ok (PDict d) -> d !! "predictions" = None ->
     (run (infer_image env self image_path) s).1 = Raise ValueError /\
     log (run (infer_image env self image_path) s).2
     = log s ++ (if decide (status_code response = 200) then []
                 else [WarnStatus (status_code response)])
         ++ [ErrorNoPredictions; ErrorUnexpected ValueError]).
Proof.
  unfold infer_image, request_url, try_except, client_error_records.
  split; [|split; [|split]].
  - intros e s'. cbn.
    unfold pass. cbn.
    destruct (requests_post env _ image_path) as [response|e0]; cbn;
      [|destruct e0; cbn; client_failure].
    destruct (decide (status_code response = 200)); cbn;
      (destruct ((400 <=? status_code response) && (status_code response <? 600));
       cbn; [client_failure|]);
      (destruct (json response) as [b|e1]; cbn;
       [|destruct e1; cbn; client_failure]);
      (destruct (has_predictions b) as [[|]|e2]; cbn;
       first [client_failure | discriminate | destruct e2; cbn; client_failure]).
  - intros e ->. cbn. destruct e; cbn; rewrite <- ?app_assoc; auto.
  - intros response -> Hst. cbn.
    replace ((400 <=? status_code response) && (status_code response <? 600))
      with true by (symmetry; apply andb_true_iff; lia).
    destruct (decide (status_code response = 200)); [lia|].
    cbn. now rewrite <- !app_assoc.
  - intros response d -> Hst Hjson Hd. cbn.
    replace ((400 <=? status_code response) && (status_code response <? 600))
      with false by (symmetry; apply andb_false_iff; lia).
    destruct (decide (status_code response = 200)); cbn;
      rewrite Hjson; cbn; rewrite Hd; cbn; rewrite <- ?app_assoc; auto.
Qed.

End ClientFacts.

(** * Further properties of the orchestrator *)

Section OrchestratorMore.
Context {rt : PyBuiltins} (env : environment) (settings : Settings).

(** X19. An image that cannot be read is skipped: when the direct decode
    gives nothing and the fallback through the bytes of the file gives no
    image either, [process_single_image] returns normally, having only
    logged the start, the error of the read and the skip; no array is
    created, the service is not called and no file is written. The error
    of the read is the decode error when the bytes decode to nothing, and
    the critical read error carrying the exception when reading or
    decoding the bytes raises. *)
Theorem unreadable_image_is_skipped (image_path : string)
    (client : RoboflowClient) (s : state) :
  cv2_imread env image_path = None ->
  (forall img_bytes img,
     read_bytes env image_path = Ok img_bytes ->
     cv2_imdecode env img_bytes <> Ok (Some img)) ->
  exists s' ev,
    run (process_single_image env settings image_path client) s = (Ok (), s') /\
    log s' = log s ++ [InfoStart image_path; ev; ErrorUnreadable image_path] /\
    arrays s' = arrays s /\ json_files s' = json_files s /\
    png_files s' = png_files s /\
    ((ev = ErrorDecode image_path /\
      exists img_bytes,
        read_bytes env image_path = Ok img_bytes /\
        cv2_imdecode env img_bytes = Ok None) \/
     (exists e,
        ev = ErrorReadCritical image_path e /\
        (read_bytes env image_path = Raise e \/
         exists img_bytes,
           read_bytes env image_path = Ok img_bytes /\
           cv2_imdecode env img_bytes = Raise e))).
Proof.
  intros Hread Hfallback. unfold process_single_image.
  rewrite run_bind. cbn [run logger]. rewrite run_bind.
  unfold read_image at 1. rewrite Hread. unfold try_except at 1. cbn [run].
  rewrite run_bind. cbn [run lift].
  destruct (read_bytes env image_path) as [img_bytes|e] eqn:Hb.
  - rewrite run_bind. cbn [run lift].
    destruct (cv2_imdecode env img_bytes) as [[img|]|e] eqn:Hd.
    + now destruct (Hfallback _ _ eq_refl Hd).
    + eexists _, _. split; [reflexivity|]. cbn. rewrite <- !app_assoc.
      repeat (split; [reflexivity|]). left. eauto.
    + eexists _, _. split; [reflexivity|]. cbn. rewrite <- !app_assoc.
      repeat (split; [reflexivity|]). right. eauto 10.
  - eexists _, _. split; [reflexivity|]. cbn. rewrite <- !app_assoc.
    repeat (split; [reflexivity|]). right. eauto 10.
Qed.

(** X20. An image whose inference fails is skipped: when the image was
    read and prepared and [infer_image] raises [e], whatever [e] is,
    [process_single_image] returns normally after logging the failure,
    and neither a JSON file nor a debug image is written for it. *)
Theorem failed_inference_is_skipped (image_path : string)
    (client : RoboflowClient) s s1 s2 s3 l vis height width e :
  run (logger (InfoStart image_path) ;; read_image env image_path) s
    = (Ok (Some l), s1) ->
  run (ensure_color_image (Some l)) s1 = (Ok vis, s2) ->
  run (get_image_dimensions (Some l)) s2 = (Ok [height; width], s2) ->
  run (infer_image env client image_path) s2 = (Raise e, s3) ->
  exists s',
    run (process_single_image env settings image_path client) s = (Ok (), s') /\
    log s' = log s3 ++ [ErrorInference image_path e] /\
    json_files s' = json_files s /\ png_files s' = png_files s.
Proof.
  intros Hread Hcolor Hdims Hinfer.
  assert (Hj : json_files s3 = json_files s).
  { pose proof (keeps_json_infer_image env client image_path s2) as H3.
    pose proof (keeps_json_ensure_color_image (Some l) s1) as H2.
    assert (H1 : keeps_json (logger (InfoStart image_path) ;; read_image env image_path))
      by (apply keeps_json_bind; [frame | intros; apply keeps_json_read_image]).
    specialize (H1 s). rewrite Hread in H1. rewrite Hcolor in H2.
    rewrite Hinfer in H3. cbn in *. congruence. }
  assert (Hp : png_files s3 = png_files s).
  { assert (H3 : keeps png_files (infer_image env client image_path))
      by (unfold infer_image; keeps_refl).
    assert (H2 : keeps png_files (ensure_color_image (Some l)))
      by (unfold ensure_color_image; keeps_refl).
    assert (H1 : keeps png_files
                   (logger (InfoStart image_path) ;; read_image env image_path))
      by (unfold read_image; keeps_refl).
    specialize (H1 s). specialize (H2 s1). specialize (H3 s2).
    rewrite Hread in H1. rewrite Hcolor in H2. rewrite Hinfer in H3.
    cbn in *. congruence. }
  unfold process_single_image.
  rewrite run_bind in Hread. rewrite run_bind.
  destruct (run (logger (InfoStart image_path)) s) as [[[]|?] s0];
    [|discriminate].
  rewrite run_bind, Hread, run_bind, Hcolor, run_bind, Hdims, run_bind.
  unfold try_except at 1. cbn [run].
  rewrite run_bind, Hinfer. cbn.
  eexists. split; [reflexivity|]. cbn. auto.
Qed.

(** X21. Processing an image touches no result file but its own two: every
    JSON file other than [<output>/<stem>.json] and every debug image other
    than [<output>/debug/<stem>_vis.png] is after the call what it was
    before, whether the call returns or raises. *)
Theorem only_own_artifacts_are_written (image_path : string)
    (client : RoboflowClient) (s : state) :
  (forall path,
     path <> output_path_of settings image_path ->
     json_files (run (process_single_image env settings image_path client) s).2
       !! path
     = json_files s !! path) /\
  (forall path,
     path <> debug_path_of settings image_path ->
     png_files (run (process_single_image env settings image_path client) s).2
       !! path
     = png_files s !! path).
Proof.
  unfold output_path_of, debug_path_of. split; intros path Hne.
  - enough (H : keeps (fun st => json_files st !! path)
                  (process_single_image env settings image_path client))
      by apply H.
    unfold process_single_image, read_image, ensure_color_image,
      get_image_dimensions, infer_image, logged, visualize_walls,
      save_result, save_debug, try_except_IOError.
    keeps_with ltac:(first [intros ?; reflexivity
                           |intros ?; cbn -[os_path_join debug_output_path];
                            apply lookup_insert_ne; congruence]).
  - enough (H : keeps (fun st => png_files st !! path)
                  (process_single_image env settings image_path client))
      by apply H.
    unfold process_single_image, read_image, ensure_color_image,
      get_image_dimensions, infer_image, logged, visualize_walls,
      save_result, save_debug, try_except_IOError.
    keeps_with ltac:(first [intros ?; reflexivity
                           |intros ?; cbn -[os_path_join debug_output_path];
                            apply lookup_insert_ne; congruence]).
Qed.

End OrchestratorMore.

Lemma append_nonempty (a b : string) : b <> "" -> a +:+ b <> "".
Proof. destruct a; [auto | discriminate]. Qed.

Lemma debug_output_path_nonempty (settings : Settings) :
  debug_output_path settings <> "".
Proof.
  unfold debug_output_path, os_path_join.
  change (String.prefix "/" "debug") with false. cbn match.
  destruct (decide (OUTPUT_DIR settings = "")); [discriminate|].
  destruct (str_endswith _ _); apply append_nonempty; discriminate.
Qed.

Section MainFacts.
Context {rt : PyBuiltins} (env : environment) (settings : Settings).

Lemma no_image_names directory (names : list string) :
  Forall (fun n => has_image_extension default_extensions n = false) names ->
  image_files_loop directory default_extensions names = [].
Proof.
  induction 1 as [|n names Hn _ IH]; [reflexivity|].
  cbn [image_files_loop]. now rewrite Hn.
Qed.

(** X22. The runs of [main] that process nothing. With an empty output
    directory setting it raises [ValueError] at once. Once the output
    directories are in place: a missing input directory, or one that
    lists no image, ends the run normally with a warning; an input path
    that is not a directory raises [ValueError]. In all four cases the
    run only writes to the log: no array is created and no file is
    written. *)
Theorem runs_without_images (s : state) :
  (OUTPUT_DIR settings = "" ->
   (run (main env settings) s).1 = Raise ValueError /\
   only_logs s (run (main env settings) s).2 [InfoLaunch]) /\
  (OUTPUT_DIR settings <> "" ->
   fs_makedirs (files env) (OUTPUT_DIR settings) = Ok () ->
   fs_makedirs (files env) (debug_output_path settings) = Ok () ->
   (fs_exists (files env) (INPUT_DIR settings) = false ->
    (run (main env settings) s).1 = Ok () /\
    only_logs s (run (main env settings) s).2
      [InfoLaunch; WarnNoDirectory (INPUT_DIR settings); InfoBatch 0;
       WarnNoImages (INPUT_DIR settings)]) /\
   (fs_exists (files env) (INPUT_DIR settings) = true ->
    fs_isdir (files env) (INPUT_DIR settings) = false ->
    (run (main env settings) s).1 = Raise ValueError /\
    only_logs s (run (main env settings) s).2
      [InfoLaunch; ErrorNotDirectory (INPUT_DIR settings)]) /\
   (forall names,
      fs_exists (files env) (INPUT_DIR settings) = true ->
      fs_isdir (files env) (INPUT_DIR settings) = true ->
      fs_listdir (files env) (INPUT_DIR settings) = Ok names ->
      Forall (fun n => has_image_extension default_extensions n = false) names ->
      (run (main env settings) s).1 = Ok () /\
      only_logs s (run (main env settings) s).2
        [InfoLaunch; InfoImagesFound 0 (INPUT_DIR settings);
         InfoBatch 0; WarnNoImages (INPUT_DIR settings)])).
Proof.
  unfold only_logs. split.
  - intros Hout. unfold main, ensure_directory_exists. rewrite Hout. cbn. auto.
  - intros Hout Hmk1 Hmk2.
    pose proof (debug_output_path_nonempty settings) as Hdbg.
    unfold main, ensure_directory_exists, get_image_files, logged, try_except.
    rewrite (decide_False (P := OUTPUT_DIR settings = "")) by assumption.
    rewrite (decide_False (P := debug_output_path settings = "")) by assumption.
    rewrite Hmk1, Hmk2.
    split; [|split].
    + intros Hex. rewrite Hex. cbn. rewrite <- !app_assoc. auto.
    + intros Hex Hdir. rewrite Hex, Hdir. cbn. rewrite <- !app_assoc. auto.
    + intros names Hex Hdir Hls Hnone.
      rewrite Hex, Hdir, Hls, (no_image_names _ _ Hnone). cbn.
      rewrite <- !app_assoc. auto.
Qed.

End MainFacts.

Section ArtifactFacts.
Context {rt : PyBuiltins} (env : environment) (settings : Settings).

Lemma save_result_opened (image_path output_path : string) (doc : PyVal)
    (s : state) :
  open_w env output_path = Ok () ->
  exists s',
    run (save_result env image_path output_path doc) s = (Ok (), s') /\
    json_files s' = <[output_path := doc]> (json_files s).
Proof.
  intros Hopen. unfold save_result, try_except_IOError, try_except. cbn.
  rewrite Hopen. cbn. eauto.
Qed.


(** X24. The document of a successfully processed image: when every stage
    succeeds and the output file can be opened, [process_single_image]
    returns normally and the JSON file at [<output>/<stem>.json] holds a
    "meta" object with the base name of the image and its [height, width],
    and under "walls" the extracted walls in order. *)
Theorem result_document (image_path : string) (client : RoboflowClient)
    s s1 s2 s3 s4 s5 l vis vis' height width detection_result items walls :
  run (logger (InfoStart image_path) ;; read_image env image_path) s
    = (Ok (Some l), s1) ->
  run (ensure_color_image (Some l)) s1 = (Ok vis, s2) ->
  run (get_image_dimensions (Some l)) s2 = (Ok [height; width], s2) ->
  run (infer_image env client image_path) s2 = (Ok detection_result, s3) ->
  py_get detection_result "predictions" (PList []) ≫= py_iter = Ok items ->
  run (logged (extract_walls items (CONFIDENCE_THRESHOLD settings))) s3
    = (Ok walls, s4) ->
  run (visualize_walls env (Some vis) walls) s4 = (Ok vis', s5) ->
  open_w env (output_path_of settings image_path) = Ok () ->
  (run (process_single_image env settings image_path client) s).1 = Ok () /\
  json_files (run (process_single_image env settings image_path client) s).2
    !! output_path_of settings image_path
  = Some (PDict
      {[ "meta" := PDict {[ "source" := PStr (basename image_path);
                            "shape" := PList [PInt (Z.of_nat height);
                                              PInt (Z.of_nat width)] ]};
         "walls" := PList (wall_json <$> walls) ]}).
Proof.
  intros Hread Hcolor Hdims Hinfer Hitems Hwalls Hvis Hopen.
  enough (exists s',
            run (process_single_image env settings image_path client) s
            = (Ok (), s') /\
            json_files s' !! output_path_of settings image_path
            = Some (PDict
                {[ "meta" := PDict {[ "source" := PStr (basename image_path);
                                      "shape" := PList [PInt (Z.of_nat height);
                                                        PInt (Z.of_nat width)] ]};
                   "walls" := PList (wall_json <$> walls) ]}))
    as (s' & -> & H) by (split; [reflexivity | exact H]).
  unfold process_single_image, output_path_of in *. cbv zeta.
  rewrite run_bind in Hread. rewrite run_bind.
  destruct (run (logger (InfoStart image_path)) s) as [[[]|?] s0];
    [|discriminate].
  rewrite run_bind, Hread, run_bind, Hcolor, run_bind, Hdims, run_bind.
  unfold try_except at 1. cbn [run].
  rewrite run_bind, Hinfer. cbn [run mret M_ret].
  destruct (py_get detection_result "predictions" (PList [])) as [predictions|];
    [|discriminate].
  cbn [mbind result_bind] in Hitems.
  rewrite run_bind. cbn [run lift]. rewrite run_bind. cbn [run lift].
  rewrite Hitems, run_bind, Hwalls, run_bind, Hvis, run_bind.
  set (meta := ({[ "source" := _; "shape" := _; "model_id" := _ ]}
                : gmap string PyVal)).
  assert (Hnew : Schemas.FloorPlanResult_new meta walls
                 = Ok {| Schemas.meta :=
                           {| Schemas.source := basename image_path;
                              Schemas.shape := [Z.of_nat height; Z.of_nat width] |};
                         Schemas.walls := Schemas.Wall_validate <$> walls |}).
  { apply (FloorPlanResult_new_accepts meta walls (basename image_path)
             [Z.of_nat height; Z.of_nat width]); subst meta.
    - apply lookup_insert_eq.
    - rewrite lookup_insert_ne by discriminate. apply lookup_insert_eq. }
  cbn [run lift]. rewrite Hnew. rewrite run_bind.
  set (out := os_path_join _ _) in *.
  set (doc := PDict _).
  destruct (save_result_opened image_path out doc s5 Hopen)
    as (s6 & -> & Hjson).
  assert (Hkeep : keeps_json
            (save_debug env image_path
               (os_path_join (debug_output_path settings)
                  (splitext_root (basename image_path) +:+ "_vis.png")) vis'))
    by (unfold save_debug; frame).
  specialize (Hkeep s6).
  destruct (save_debug_never_raises env image_path
              (os_path_join (debug_output_path settings)
                 (splitext_root (basename image_path) +:+ "_vis.png"))
              vis' s6) as ([] & s7 & Hdbg).
  rewrite Hdbg in Hkeep |- *. cbn in Hkeep |- *.
  exists s7. split; [reflexivity|].
  rewrite Hkeep, Hjson, lookup_insert_eq. subst doc.
  unfold Schemas.model_dump, Schemas.Metadata_dump. cbn.
  do 4 f_equal. rewrite <- list_fmap_compose.
  apply (f_equal PList), list_fmap_ext.
  intros i w _. apply wall_dump_json.
Qed.

End ArtifactFacts.

(** * Evaluations for the further properties *)

Section MoreEvaluations.
#[local] Existing Instance reference_builtins.
Import Examples.

Lemma non_wall_classes_emit_nothing_witness :
  prediction_body f0_2 1 door = Ok None /\
  extract_walls (filter (fun p => negb (not_a_wall p)) [door; wall_09; door]) f0_2
  = extract_walls [door; wall_09; door] f0_2.
Proof.
  destruct (non_wall_classes_emit_nothing f0_2) as (Hskip & Hfilter).
  split; [apply Hskip; vm_compute; reflexivity | apply Hfilter].
Defined.

Lemma returned_walls_come_from_predictions_witness :
  Forall (fun w =>
            (exists d,
               PDict d ∈ [wall_low; wall_09; PDict wall_na; PDict wall_at_threshold]
               /\ wall_of d w) /\
            ltb (w_confidence w) f0_2 = false /\
            (length (w_points w) = 2%nat \/ length (w_points w) = 4%nat))
    [segment_w 1 f0_9; segment_w 2 f0_2].
Proof.
  apply (returned_walls_come_from_predictions
           [wall_low; wall_09; PDict wall_na; PDict wall_at_threshold] f0_2
           [WarnPrediction ValueError; InfoWallsFound 2]).
  vm_compute. reflexivity.
Defined.


Lemma extraction_respects_prefixes_witness :
  (exists log1 ws1 ws2,
     extract_walls [wall_09; door] f0_2 = (log1, Ok ws1) /\
     [segment_w 1 f0_9; segment_w 2 f0_2] = ws1 ++ ws2) /\
  extract_walls ([wall_09; wall_inf] ++ [wall_09]) f0_2
  = ([], Raise OverflowError).
Proof.
  split.
  - apply (proj1 (extraction_respects_prefixes
                    [wall_09; door] [PDict wall_at_threshold] f0_2)
             [InfoWallsFound 2]).
    vm_compute. reflexivity.
  - apply (proj2 (extraction_respects_prefixes
                    [wall_09; wall_inf] [wall_09] f0_2)).
    vm_compute. reflexivity.
Defined.

Lemma extraction_escaping_exceptions_witness :
  extract_walls_call PNone f0_2 = ([], Raise TypeError) /\
  (extract_walls_call (PList [wall_09; wall_inf]) f0_2
   = ([], Raise OverflowError) /\
   exists preds, py_iter (PList [wall_09; wall_inf]) = Ok preds) /\
  (extract_walls_call (PList [wall_09; PNone]) f0_2
   = ([], Raise AttributeError) /\
   exists pred, pred ∈ [wall_09; PNone] /\ is_dict pred = false).
Proof.
  split; [|split].
  - apply (proj1 (extraction_escaping_exceptions PNone f0_2)). reflexivity.
  - assert (Hrun : extract_walls_call (PList [wall_09; wall_inf]) f0_2
                   = ([], Raise OverflowError)) by (vm_compute; reflexivity).
    split; [exact Hrun|].
    destruct (proj2 (extraction_escaping_exceptions
                       (PList [wall_09; wall_inf]) f0_2) _ _ Hrun)
      as [[H _] | (preds & Hiter & _)]; [discriminate H | eauto].
  - assert (Hrun : extract_walls_call (PList [wall_09; PNone]) f0_2
                   = ([], Raise AttributeError)) by (vm_compute; reflexivity).
    split; [exact Hrun|].
    destruct (proj2 (extraction_escaping_exceptions
                       (PList [wall_09; PNone]) f0_2) _ _ Hrun)
      as [[H _] | (preds & Hiter & [H | [_ Hpred]])];
      [discriminate H | discriminate H |].
    injection Hiter as <-. exact Hpred.
Defined.

Lemma bbox_geometry_is_axis_aligned_witness :
  (((0, 50).2 = (100, 50).2 /\
    to_int (sub (of_Z 50) (div (of_Z 100) two)) = Ok (0, 50).1 /\
    to_int (add (of_Z 50) (div (of_Z 100) two)) = Ok (100, 50).1) \/
   ((0, 50).1 = (100, 50).1 /\
    to_int (sub (of_Z 50) (div (of_Z 10) two)) = Ok (0, 50).2 /\
    to_int (add (of_Z 50) (div (of_Z 10) two)) = Ok (100, 50).2)) /\
  (((40, 40).2 = (60, 40).2 /\ (60, 40).1 = (60, 60).1 /\
    (60, 60).2 = (40, 60).2 /\ (40, 60).1 = (40, 40).1) /\
   to_int (sub (of_Z 50) (div (of_Z 20) two)) = Ok (40, 40).1 /\
   to_int (sub (of_Z 50) (div (of_Z 20) two)) = Ok (40, 40).2 /\
   to_int (add (of_Z 50) (div (of_Z 20) two)) = Ok (60, 60).1 /\
   to_int (add (of_Z 50) (div (of_Z 20) two)) = Ok (60, 60).2).
Proof.
  split.
  - apply (proj1 (bbox_geometry_is_axis_aligned
                    (of_Z 50) (of_Z 50) (of_Z 100) (of_Z 10))).
    vm_compute. reflexivity.
  - apply (proj2 (bbox_geometry_is_axis_aligned
                    (of_Z 50) (of_Z 50) (of_Z 20) (of_Z 20))).
    vm_compute. reflexivity.
Defined.

Lemma bbox_returns_iff_corners_finite_witness :
  (exists pts, bbox_to_wall_line fm3_5 f7_25 (of_Z 4) (of_Z 3) = Ok pts) /\
  (OverflowError = ValueError \/ OverflowError = OverflowError).
Proof.
  split.
  - apply (proj1 (bbox_returns_iff_corners_finite fm3_5 f7_25 (of_Z 4) (of_Z 3))).
    repeat split; vm_compute; reflexivity.
  - apply (proj2 (bbox_returns_iff_corners_finite
                    (S754_infinity false) f7_25 (of_Z 4) (of_Z 3))).
    vm_compute. reflexivity.
Defined.

Lemma strokes_per_wall_witness :
  let s := store_of [bgr_1x1] in
  run (visualize_walls recording_world (Some 0%nat)
         [square_wall; segment_w 2 f0_9]) s
  = (Ok 1%nat,
     with_array s 1%nat
       {| shape := [1; 1; 3]%nat;
          data := [1; 2; 3;
                   40; 40; 60; 40;  60; 40; 60; 60;  60; 60; 40; 60;
                   0; 50; 100; 50] |}).
Proof.
  intros s.
  apply (proj1 (strokes_per_wall recording_world s 0%nat bgr_1x1
                  [square_wall; segment_w 2 f0_9] eq_refl)).
  vm_compute. reflexivity.
Defined.

Lemma ensure_color_image_other_arrays_witness :
  let s := store_of [line_1d; two_channels] in
  run (ensure_color_image (Some 0%nat)) s = (Raise IndexError, s) /\
  run (ensure_color_image (Some 1%nat)) s
  = (Ok (fresh_loc s), with_array s (fresh_loc s) two_channels) /\
  ((forall l' a',
      arrays s !! l' = Some a' ->
      arrays (with_array s (fresh_loc s) two_channels) !! l' = Some a') /\
   json_files (with_array s (fresh_loc s) two_channels) = json_files s /\
   png_files (with_array s (fresh_loc s) two_channels) = png_files s /\
   log (with_array s (fresh_loc s) two_channels) = log s).
Proof.
  intros s. split; [|split].
  - apply (proj1 (ensure_color_image_other_arrays s 0%nat line_1d eq_refl)).
    vm_compute. lia.
  - apply (proj1 (proj2 (ensure_color_image_other_arrays s 1%nat two_channels
                           eq_refl)) 2%nat); [reflexivity | lia].
  - apply (proj2 (proj2 (ensure_color_image_other_arrays s 1%nat two_channels
                           eq_refl)) (Ok (fresh_loc s))).
    vm_compute. reflexivity.
Defined.

Lemma visualize_walls_draws_on_a_copy_witness :
  let s := store_of [bgr_1x1] in
  run (visualize_walls world (Some 0%nat) []) s
  = (Ok (fresh_loc s), with_array s (fresh_loc s) bgr_1x1) /\
  ((forall vis, Ok 1%nat = Ok vis -> vis = fresh_loc s /\ arrays s !! vis = None) /\
   (forall l' a',
      arrays s !! l' = Some a' ->
      arrays (with_array s 1%nat bgr_1x1) !! l' = Some a') /\
   json_files (with_array s 1%nat bgr_1x1) = json_files s /\
   png_files (with_array s 1%nat bgr_1x1) = png_files s /\
   log (with_array s 1%nat bgr_1x1) = log s).
Proof.
  intros s.
  destruct (visualize_walls_draws_on_a_copy world s [segment_w 1 f0_9])
    as (_ & Hcopy & Hdraw).
  split.
  - apply (Hcopy 0%nat bgr_1x1). reflexivity.
  - apply (Hdraw 0%nat bgr_1x1 (Ok 1%nat)); [reflexivity|].
    vm_compute. reflexivity.
Defined.

Lemma basename_of_joined_path_witness :
  basename (os_path_join "./images" "B.JPG") = "B.JPG".
Proof. apply basename_of_joined_path. vm_compute. reflexivity. Defined.

Lemma get_image_files_outcomes_witness :
  get_image_files (files_with false false []) "./missing" None
  = ([WarnNoDirectory "./missing"], Ok []) /\
  get_image_files (files_with true false []) "./notes.txt" None
  = ([ErrorNotDirectory "./notes.txt"], Raise ValueError) /\
  exists image_files,
    get_image_files (files world) "./images" None
    = ([InfoImagesFound (length image_files) "./images"], Ok image_files) /\
    image_files
    = os_path_join "./images"
        <$> filter (fun n => has_image_extension
                               (default default_extensions None) n)
              ["a.png"; "notes.txt"; "B.JPG"] /\
    (length image_files <= length ["a.png"; "notes.txt"; "B.JPG"])%nat.
Proof.
  split; [|split].
  - apply (proj1 (get_image_files_outcomes (files_with false false [])
                    "./missing" None)). reflexivity.
  - apply (proj1 (proj2 (get_image_files_outcomes (files_with true false [])
                           "./notes.txt" None))); reflexivity.
  - apply (proj2 (proj2 (get_image_files_outcomes (files world)
                           "./images" None))); reflexivity.
Defined.

Lemma stem_of_image_name_witness :
  (splitext_root ("plan.v2" +:+ "." +:+ "png") = "plan.v2" /\
   splitext_root (basename (os_path_join "./images" ("plan.v2" +:+ "." +:+ "png")))
   = "plan.v2" /\
   splitext_root ("./images" +:+ "/" +:+ ("plan.v2" +:+ "." +:+ "png"))
   = "./images" +:+ "/" +:+ "plan.v2") /\
  (splitext_root ("" +:+ "." +:+ "png") = "" +:+ "." +:+ "png" /\
   splitext_root (basename (os_path_join "./images" ("" +:+ "." +:+ "png")))
   = "" +:+ "." +:+ "png" /\
   splitext_root ("./images" +:+ "/" +:+ ("" +:+ "." +:+ "png"))
   = "./images" +:+ "/" +:+ ("" +:+ "." +:+ "png")).
Proof.
  split.
  - apply (proj1 (stem_of_image_name "./images" "plan.v2" "png"
                    eq_refl eq_refl)).
    reflexivity.
  - apply (proj2 (stem_of_image_name "./images" "" "png" eq_refl eq_refl)).
    reflexivity.
Defined.

Lemma result_validation_witness :
  let meta : gmap string PyVal :=
    {[ "source" := PStr "B.JPG"; "shape" := PList [PInt 1; PInt 2];
       "model_id" := PStr "cubicasa5k-2-qpmsa/6" ]} in
  let r :=
    {| Schemas.meta := {| Schemas.source := "B.JPG"; Schemas.shape := [1; 2] |};
       Schemas.walls := Schemas.Wall_validate <$> [segment_w 1 f0_9] |} in
  (Schemas.FloorPlanResult_new meta [segment_w 1 f0_9] = Ok r /\
   forall other v,
     other <> "source" -> other <> "shape" ->
     Schemas.FloorPlanResult_new (<[other := v]> meta) [segment_w 1 f0_9]
     = Schemas.FloorPlanResult_new meta [segment_w 1 f0_9]) /\
  Schemas.FloorPlanResult_new {[ "source" := PStr "B.JPG" ]} [segment_w 1 f0_9]
  = Raise ValidationError.
Proof.
  intros meta r. split.
  - apply (proj1 (result_validation meta [segment_w 1 f0_9]) "B.JPG" [1; 2]);
      reflexivity.
  - apply (proj1 (proj2 (result_validation {[ "source" := PStr "B.JPG" ]}
                           [segment_w 1 f0_9]))).
    right. reflexivity.
Defined.

Lemma dumped_walls_witness :
  let meta : gmap string PyVal :=
    {[ "source" := PStr "B.JPG"; "shape" := PList [PInt 1; PInt 2] ]} in
  let r :=
    {| Schemas.meta := {| Schemas.source := "B.JPG"; Schemas.shape := [1; 2] |};
       Schemas.walls := Schemas.Wall_validate <$> [segment_w 1 f0_9] |} in
  Schemas.model_dump r !! "walls"
  = Some (PList (wall_json <$> [segment_w 1 f0_9])) /\
  dom (Schemas.model_dump r) = {[ "meta"; "walls" ]}.
Proof.
  intros meta r. apply (dumped_walls meta [segment_w 1 f0_9] r).
  vm_compute. reflexivity.
Defined.

Lemma infer_image_success_witness :
  exists body s',
    run (infer_image world client0 "./images/B.JPG") initial_state
    = (Ok body, s') /\
    exists response,
      requests_post world (request_url client0) "./images/B.JPG" = Ok response /\
      (status_code response < 400 \/ 600 <= status_code response) /\
      json response = Ok body /\
      has_predictions body = Ok true /\
      arrays s' = arrays initial_state /\
      json_files s' = json_files initial_state /\
      png_files s' = png_files initial_state /\
      log s' = log initial_state
               ++ (if decide (status_code response = 200) then []
                   else [WarnStatus (status_code response)]).
Proof.
  let r := eval vm_compute in
    (run (infer_image world client0 "./images/B.JPG") initial_state) in
  lazymatch r with (Ok ?body, ?s') =>
    exists body, s'; split; [vm_compute; reflexivity|];
    apply (infer_image_success world client0 "./images/B.JPG"
             initial_state s' body);
    vm_compute; reflexivity
  end.
Defined.

Lemma infer_image_failures_witness :
  let offline := with_post (fun _ _ => Raise RequestException) in
  let refused :=
    with_post (fun _ _ => Ok {| status_code := 500; json := Raise ValueError |}) in
  let empty :=
    with_post (fun _ _ => Ok {| status_code := 200; json := Ok (PDict ∅) |}) in
  ((run (infer_image offline client0 "./images/B.JPG") initial_state).1
   = Raise RequestException /\
   log (run (infer_image offline client0 "./images/B.JPG") initial_state).2
   = log initial_state ++ [ErrorNetwork]) /\
  ((run (infer_image refused client0 "./images/B.JPG") initial_state).1
   = Raise HTTPError /\
   log (run (infer_image refused client0 "./images/B.JPG") initial_state).2
   = log initial_state ++ [WarnStatus 500; ErrorNetwork; ErrorResponseDetails]) /\
  ((run (infer_image empty client0 "./images/B.JPG") initial_state).1
   = Raise ValueError /\
   log (run (infer_image empty client0 "./images/B.JPG") initial_state).2
   = log initial_state ++ (if decide (200 = 200) then [] else [WarnStatus 200])
     ++ [ErrorNoPredictions; ErrorUnexpected ValueError]) /\
  ((exists earlier,
      log (run (infer_image refused client0 "./images/B.JPG") initial_state).2
      = log initial_state ++ earlier
        ++ [ErrorNetwork; ErrorResponseDetails]) /\
   arrays (run (infer_image refused client0 "./images/B.JPG") initial_state).2
   = arrays initial_state /\
   json_files (run (infer_image refused client0 "./images/B.JPG") initial_state).2
   = json_files initial_state /\
   png_files (run (infer_image refused client0 "./images/B.JPG") initial_state).2
   = png_files initial_state).
Proof.
  intros offline refused empty. split; [|split; [|split]].
  - exact (proj1 (proj2 (infer_image_failures offline client0 "./images/B.JPG"
                           initial_state))
             RequestException eq_refl).
  - apply (proj1 (proj2 (proj2 (infer_image_failures refused client0
                                  "./images/B.JPG" initial_state)))
             {| status_code := 500; json := Raise ValueError |});
      [reflexivity | cbn; lia].
  - apply (proj2 (proj2 (proj2 (infer_image_failures empty client0
                                  "./images/B.JPG" initial_state)))
             {| status_code := 200; json := Ok (PDict ∅) |} ∅);
      [reflexivity | cbn; lia | reflexivity | reflexivity].
  - apply (proj1 (infer_image_failures refused client0 "./images/B.JPG"
                    initial_state) HTTPError).
    vm_compute. reflexivity.
Defined.

Lemma unreadable_image_is_skipped_witness :
  exists s',
    run (process_single_image unreadable_world default_settings
           "./images/B.JPG" client0) initial_state = (Ok (), s') /\
    log s' = log initial_state
             ++ [InfoStart "./images/B.JPG"; ErrorDecode "./images/B.JPG";
                 ErrorUnreadable "./images/B.JPG"] /\
    arrays s' = arrays initial_state /\
    json_files s' = json_files initial_state /\
    png_files s' = png_files initial_state.
Proof.
  destruct (unreadable_image_is_skipped unreadable_world default_settings
              "./images/B.JPG" client0 initial_state)
    as (s' & ev & Hrun & Hlog & Harrays & Hjson & Hpng & Hev).
  - reflexivity.
  - intros img_bytes img _ H. discriminate H.
  - exists s'. split; [exact Hrun|].
    destruct Hev as [[-> _] | (e & _ & [H | (img_bytes & _ & H)])];
      [auto | discriminate H | discriminate H].
Defined.

Lemma failed_inference_is_skipped_witness :
  let offline := with_post (fun _ _ => Raise RequestException) in
  exists s',
    run (process_single_image offline default_settings "./images/B.JPG" client0)
      initial_state = (Ok (), s') /\
    log s' = [InfoStart "./images/B.JPG"; ErrorNetwork]
             ++ [ErrorInference "./images/B.JPG" RequestException] /\
    json_files s' = json_files initial_state /\
    png_files s' = png_files initial_state.
Proof.
  intros offline.
  let r1 := eval vm_compute in
    (run (logger (InfoStart "./images/B.JPG") ;;
          read_image offline "./images/B.JPG") initial_state) in
  lazymatch r1 with (Ok (Some ?l), ?s1) =>
  let r2 := eval vm_compute in (run (ensure_color_image (Some l)) s1) in
  lazymatch r2 with (Ok ?vis, ?s2) =>
  let r3 := eval vm_compute in (run (get_image_dimensions (Some l)) s2) in
  lazymatch r3 with (Ok [?h; ?w], _) =>
  let r4 := eval vm_compute in
    (run (infer_image offline client0 "./images/B.JPG") s2) in
  lazymatch r4 with (Raise ?e, ?s3) =>
    apply (failed_inference_is_skipped offline default_settings
             "./images/B.JPG" client0 initial_state s1 s2 s3 l vis h w e);
    vm_compute; reflexivity
  end end end end.
Defined.

Lemma only_own_artifacts_are_written_witness :
  json_files (run (process_single_image world default_settings
                     "./images/B.JPG" client0) initial_state).2
    !! "./out/a.json"
  = json_files initial_state !! "./out/a.json" /\
  png_files (run (process_single_image world default_settings
                    "./images/B.JPG" client0) initial_state).2
    !! "./out/debug/a_vis.png"
  = png_files initial_state !! "./out/debug/a_vis.png".
Proof.
  destruct (only_own_artifacts_are_written world default_settings
              "./images/B.JPG" client0 initial_state) as [Hjson Hpng].
  split.
  - apply Hjson. vm_compute. discriminate.
  - apply Hpng. vm_compute. discriminate.
Defined.

Lemma runs_without_images_witness :
  let missing := with_files (files_with false false []) in
  let plain_file := with_files (files_with true false []) in
  let no_images := with_files (files_with true true ["notes.txt"; "README"]) in
  ((run (main world no_output_settings) initial_state).1 = Raise ValueError /\
   only_logs initial_state (run (main world no_output_settings) initial_state).2
     [InfoLaunch]) /\
  ((run (main missing default_settings) initial_state).1 = Ok () /\
   only_logs initial_state (run (main missing default_settings) initial_state).2
     [InfoLaunch; WarnNoDirectory "./images"; InfoBatch 0;
      WarnNoImages "./images"]) /\
  ((run (main plain_file default_settings) initial_state).1 = Raise ValueError /\
   only_logs initial_state
     (run (main plain_file default_settings) initial_state).2
     [InfoLaunch; ErrorNotDirectory "./images"]) /\
  ((run (main no_images default_settings) initial_state).1 = Ok () /\
   only_logs initial_state
     (run (main no_images default_settings) initial_state).2
     [InfoLaunch; InfoImagesFound 0 "./images"; InfoBatch 0;
      WarnNoImages "./images"]).
Proof.
  intros missing plain_file no_images. split; [|split; [|split]].
  - exact (proj1 (runs_without_images world no_output_settings initial_state)
             eq_refl).
  - pose proof (proj2 (runs_without_images missing default_settings
                         initial_state)
                  ltac:(discriminate) eq_refl eq_refl) as (H & _ & _).
    exact (H eq_refl).
  - pose proof (proj2 (runs_without_images plain_file default_settings
                         initial_state)
                  ltac:(discriminate) eq_refl eq_refl) as (_ & H & _).
    exact (H eq_refl eq_refl).
  - pose proof (proj2 (runs_without_images no_images default_settings
                         initial_state)
                  ltac:(discriminate) eq_refl eq_refl) as (_ & _ & H).
    apply (H ["notes.txt"; "README"] eq_refl eq_refl eq_refl).
    repeat constructor.
Defined.


Lemma result_document_witness :
  (run (process_single_image world default_settings "./images/B.JPG" client0)
     initial_state).1 = Ok () /\
  json_files (run (process_single_image world default_settings
                     "./images/B.JPG" client0) initial_state).2
    !! output_path_of default_settings "./images/B.JPG"
  = Some (PDict
      {[ "meta" := PDict {[ "source" := PStr (basename "./images/B.JPG");
                            "shape" := PList [PInt (Z.of_nat 1);
                                              PInt (Z.of_nat 2)] ]};
         "walls" := PList (wall_json <$> [segment_w 1 f0_9]) ]}).
Proof.
  let r1 := eval vm_compute in
    (run (logger (InfoStart "./images/B.JPG") ;;
          read_image world "./images/B.JPG") initial_state) in
  lazymatch r1 with (Ok (Some ?l), ?s1) =>
  let r2 := eval vm_compute in (run (ensure_color_image (Some l)) s1) in
  lazymatch r2 with (Ok ?vis, ?s2) =>
  let r4 := eval vm_compute in
    (run (infer_image world client0 "./images/B.JPG") s2) in
  lazymatch r4 with (Ok ?det, ?s3) =>
  let r5 := eval vm_compute in
    (py_get det "predictions" (PList []) ≫= py_iter) in
  lazymatch r5 with Ok ?items =>
  let r6 := eval vm_compute in
    (run (logged (extract_walls items (CONFIDENCE_THRESHOLD default_settings)))
       s3) in
  lazymatch r6 with (Ok _, ?s4) =>
  let r7 := eval vm_compute in
    (run (visualize_walls world (Some vis) [segment_w 1 f0_9]) s4) in
  lazymatch r7 with (Ok ?vis', ?s5) =>
    apply (result_document world default_settings "./images/B.JPG" client0
             initial_state s1 s2 s3 s4 s5 l vis vis' 1%nat 2%nat det items
             [segment_w 1 f0_9]);
    vm_compute; reflexivity
  end end end end end end.
Defined.

End MoreEvaluations.
